(** * Working days between two dates, per Australian jurisdiction

    A shallow embedding of [main.py] (the FastAPI service with the two
    endpoints [/working-days] and [/working-days-list]) and of the parts of
    Python's [datetime] module the service calls.

    - [Calendar]: [datetime] values and the proleptic Gregorian ordinal
      arithmetic behind [weekday], [-], [+ timedelta(days=..)] and the
      comparisons.
    - [Strptime]: [datetime.strptime(text, "%Y-%m-%d")], over the
      characters of a text and the decimal digits of Unicode.
    - [LruCache]: [functools.lru_cache(maxsize=..)] as explicit state.
    - [Service]: the functions of [main.py], over the external holiday
      calendar taken as a parameter. *)

From Stdlib Require Import ZArith NArith List Bool String Ascii Lia Sorted.
Import ListNotations.

#[local] Open Scope string_scope.
#[local] Open Scope list_scope.
#[local] Open Scope Z_scope.
#[local] Set Default Proof Using "Type".

(* ================================================================== *)
(** ** Results of fallible code *)

(** The exceptions the service can meet: the [HTTPException] it raises
    itself, and the [OverflowError] of [datetime.__add__]. *)
Inductive exn : Type :=
| HTTPException (status_code : Z) (detail : string)
| OverflowError.

Inductive result (A : Type) : Type :=
| Return (a : A)
| Raise (e : exn).

Arguments Return {A} a.
Arguments Raise {A} e.

Definition bind {A B : Type} (r : result A) (k : A -> result B) : result B :=
  match r with
  | Return a => k a
  | Raise e => Raise e
  end.

Notation "x <- r ;; k" := (bind r (fun x => k))
  (at level 61, r at next level, right associativity).

(* ================================================================== *)
(** ** Python's [datetime] arithmetic *)

Module Calendar.

(** A [datetime] as the service sees it. [parse_date] builds every value
    with [strptime] and a date-only format, and the service only ever adds
    whole days, so hour, minute, second and microsecond are 0 throughout
    and are left out of the record. *)
Record datetime : Type := mkDatetime { year : Z; month : Z; day : Z }.

Definition MINYEAR : Z := 1.
Definition MAXYEAR : Z := 9999.
Definition _MAXORDINAL : Z := 3652059.

Definition _DAYS_IN_MONTH : list Z :=
  [-1; 31; 28; 31; 30; 31; 30; 31; 31; 30; 31; 30; 31].

Definition _DAYS_BEFORE_MONTH : list Z :=
  [-1; 0; 31; 59; 90; 120; 151; 181; 212; 243; 273; 304; 334].

(** [table[i]] for an index inside the table. *)
Definition index (table : list Z) (i : Z) : Z := nth (Z.to_nat i) table 0.

(** [year % 4 == 0 and (year % 100 != 0 or year % 400 == 0)] *)
Definition _is_leap (y : Z) : bool :=
  (y mod 4 =? 0) && (negb (y mod 100 =? 0) || (y mod 400 =? 0)).

(** [y = year - 1; return y*365 + y//4 - y//100 + y//400] *)
Definition _days_before_year (y : Z) : Z :=
  let y := y - 1 in y * 365 + y / 4 - y / 100 + y / 400.

Definition _days_in_month (y m : Z) : Z :=
  if (m =? 2) && _is_leap y then 29 else index _DAYS_IN_MONTH m.

(** [_DAYS_BEFORE_MONTH[month] + (month > 2 and _is_leap(year))] *)
Definition _days_before_month (y m : Z) : Z :=
  index _DAYS_BEFORE_MONTH m + (if (2 <? m) && _is_leap y then 1 else 0).

Definition _ymd2ord (y m d : Z) : Z :=
  _days_before_year y + _days_before_month y m + d.

Definition _DI400Y : Z := 146097.
Definition _DI100Y : Z := 36524.
Definition _DI4Y : Z := 1461.

(** The month and day of the [n]-th day (from 0) of a year. *)
Definition _month_day (leapyear : bool) (n : Z) : Z * Z :=
  let month := Z.shiftr (n + 50) 5 in
  let preceding :=
    index _DAYS_BEFORE_MONTH month
    + (if (2 <? month) && leapyear then 1 else 0) in
  if n <? preceding then
    let month := month - 1 in
    let preceding :=
      preceding
      - (index _DAYS_IN_MONTH month
         + (if (month =? 2) && leapyear then 1 else 0)) in
    (month, n - preceding + 1)
  else (month, n - preceding + 1).

Definition _ord2ymd (n : Z) : Z * Z * Z :=
  let n := n - 1 in
  let n400 := n / _DI400Y in
  let n := n mod _DI400Y in
  let y := n400 * 400 + 1 in
  let n100 := n / _DI100Y in
  let n := n mod _DI100Y in
  let n4 := n / _DI4Y in
  let n := n mod _DI4Y in
  let n1 := n / 365 in
  let n := n mod 365 in
  let y := y + n100 * 100 + n4 * 4 + n1 in
  if (n1 =? 4) || (n100 =? 4) then (y - 1, 12, 31)
  else
    let leapyear := (n1 =? 3) && (negb (n4 =? 24) || (n100 =? 3)) in
    let '(m, d) := _month_day leapyear n in
    (y, m, d).

(** [_check_date_fields]: what every constructed [datetime] satisfies. *)
Definition valid (d : datetime) : bool :=
  (MINYEAR <=? year d) && (year d <=? MAXYEAR)
  && (1 <=? month d) && (month d <=? 12)
  && (1 <=? day d) && (day d <=? _days_in_month (year d) (month d)).

Definition toordinal (d : datetime) : Z :=
  _ymd2ord (year d) (month d) (day d).

Definition fromordinal (n : Z) : datetime :=
  let '(y, m, d) := _ord2ymd n in mkDatetime y m d.

(** [(self.toordinal() + 6) % 7]: Monday is 0, Sunday is 6. *)
Definition weekday (d : datetime) : Z := (toordinal d + 6) mod 7.

(** [self.toordinal() % 7 or 7]: Monday is 1, Sunday is 7. *)
Definition isoweekday (d : datetime) : Z :=
  let w := toordinal d mod 7 in if w =? 0 then 7 else w.

(** Comparison of the field tuples, as [datetime._cmp] does. *)
Definition compare (a b : datetime) : comparison :=
  match year a ?= year b with
  | Eq => match month a ?= month b with
          | Eq => day a ?= day b
          | c => c
          end
  | c => c
  end.

Definition eqb (a b : datetime) : bool :=
  match compare a b with Eq => true | _ => false end.
Definition ltb (a b : datetime) : bool :=
  match compare a b with Lt => true | _ => false end.
Definition gtb (a b : datetime) : bool :=
  match compare a b with Gt => true | _ => false end.
Definition leb (a b : datetime) : bool := negb (gtb a b).

(** [(a - b).days] for two midnights. *)
Definition sub_days (a b : datetime) : Z := toordinal a - toordinal b.

(** [d + timedelta(days=x)]: [datetime.__add__] rebuilds the date from
    the ordinal and raises [OverflowError] outside [1 .. _MAXORDINAL]. *)
Definition add_days (d : datetime) (x : Z) : result datetime :=
  let n := toordinal d + x in
  if (0 <? n) && (n <=? _MAXORDINAL) then Return (fromordinal n)
  else Raise OverflowError.

End Calendar.

Import Calendar.

(** [range(lo, hi)] and [range(n)] *)
Definition range2 (lo hi : Z) : list Z :=
  map (fun k => lo + Z.of_nat k) (seq 0 (Z.to_nat (hi - lo))).

Definition range (n : Z) : list Z := range2 0 n.

(* ================================================================== *)
(** ** [datetime.strptime(text, "%Y-%m-%d")] *)

Module Strptime.

(** A Python [str] is a sequence of code points. A text is held here as
    the bytes of its UTF-8 form, which is how the text of a query reaches
    the service, and [decode] gives its characters. Bytes that are not
    UTF-8 are the form of no text ([None]). *)
Definition continuation (c : ascii) : option N :=
  let b := N_of_ascii c in
  if (128 <=? b)%N && (b <? 192)%N then Some (b - 128)%N else None.

Fixpoint decode (s : string) : option (list N) :=
  match s with
  | EmptyString => Some []
  | String c0 s1 =>
      let b0 := N_of_ascii c0 in
      if (b0 <? 128)%N then option_map (cons b0) (decode s1)
      else if (b0 <? 224)%N then
        match s1 with
        | String c1 s2 =>
            match continuation c1 with
            | Some x1 =>
                let cp := ((b0 - 192) * 64 + x1)%N in
                if (192 <=? b0)%N && (128 <=? cp)%N
                then option_map (cons cp) (decode s2) else None
            | None => None
            end
        | EmptyString => None
        end
      else if (b0 <? 240)%N then
        match s1 with
        | String c1 (String c2 s3) =>
            match continuation c1, continuation c2 with
            | Some x1, Some x2 =>
                let cp := (((b0 - 224) * 64 + x1) * 64 + x2)%N in
                if (2048 <=? cp)%N
                   && negb ((55296 <=? cp)%N && (cp <=? 57343)%N)
                then option_map (cons cp) (decode s3) else None
            | _, _ => None
            end
        | _ => None
        end
      else
        match s1 with
        | String c1 (String c2 (String c3 s4)) =>
            match continuation c1, continuation c2, continuation c3 with
            | Some x1, Some x2, Some x3 =>
                let cp :=
                  ((((b0 - 240) * 64 + x1) * 64 + x2) * 64 + x3)%N in
                if (b0 <? 248)%N && (65536 <=? cp)%N && (cp <=? 1114111)%N
                then option_map (cons cp) (decode s4) else None
            | _, _, _ => None
            end
        | _ => None
        end
  end.

(** The characters of a text of ASCII. *)
Definition codes (s : string) : list N :=
  map N_of_ascii (list_ascii_of_string s).

(** [_strptime] turns the format into a regular expression, one group per
    directive, and matches it at the start of the text. The expressions of
    [%Y], [%m] and [%d] have no repetition: character classes,
    concatenation and alternation. *)
Inductive re : Type :=
| Class (p : N -> bool)
| Cat (r1 r2 : re)
| Alt (r1 r2 : re).

(** Every way [r] matches a prefix of [s], as (matched text, rest), in the
    order a backtracking matcher tries them: the left alternative first. *)
Fixpoint splits (r : re) (s : list N) : list (list N * list N) :=
  match r with
  | Class p =>
      match s with
      | c :: t => if p c then [([c], t)] else []
      | [] => []
      end
  | Cat r1 r2 =>
      flat_map
        (fun '(m1, t1) => map (fun '(m2, t2) => (m1 ++ m2, t2)) (splits r2 t1))
        (splits r1 s)
  | Alt r1 r2 => splits r1 s ++ splits r2 s
  end.

Definition lit (a : ascii) : re := Class (N.eqb (N_of_ascii a)).

(** [[lo-hi]] *)
Definition between (lo hi : ascii) : re :=
  Class (fun c => (N_of_ascii lo <=? c)%N && (c <=? N_of_ascii hi)%N).

(** [%m]: [1[0-2]|0[1-9]|[1-9]] *)
Definition re_m : re :=
  Alt (Cat (lit "1") (between "0" "2"))
      (Alt (Cat (lit "0") (between "1" "9")) (between "1" "9")).

Section Directives.

(** The decimal digits beyond ASCII and their values: what
    [unicodedata.decimal] gives for the characters of category Nd in the
    Unicode database of the interpreter. Both [\d] of a [str] pattern and
    [int] go by it. *)
Variable unicode_decimal : N -> option Z.

(** The value of a decimal digit; in ASCII the digits are [0] to [9]. *)
Definition digit_value (c : N) : option Z :=
  if (c <? 128)%N then
    if (48 <=? c)%N && (c <=? 57)%N then Some (Z.of_N c - 48) else None
  else unicode_decimal c.

Definition is_decimal (c : N) : bool :=
  match digit_value c with Some _ => true | None => false end.

(** [\d]: a decimal digit of any script *)
Definition digit : re := Class is_decimal.

(** [%Y]: [\d\d\d\d] *)
Definition re_Y : re := Cat digit (Cat digit (Cat digit digit)).

(** [%d]: [3[0-1]|[1-2]\d|0[1-9]|[1-9]| [1-9]] *)
Definition re_d : re :=
  Alt (Cat (lit "3") (between "0" "1"))
      (Alt (Cat (between "1" "2") digit)
           (Alt (Cat (lit "0") (between "1" "9"))
                (Alt (between "1" "9") (Cat (lit " ") (between "1" "9"))))).

(** The matches of [(?P<Y>..)-(?P<m>..)-(?P<d>..)] at the start of [s]: the
    three groups and the text left over, in backtracking order. *)
Definition format_matches (s : list N)
  : list (list N * list N * list N * list N) :=
  flat_map (fun '(Y, t1) =>
  flat_map (fun '(_, t2) =>
  flat_map (fun '(m, t3) =>
  flat_map (fun '(_, t4) =>
  map (fun '(d, t5) => (Y, m, d, t5)) (splits re_d t4))
    (splits (lit "-") t3))
    (splits re_m t2))
    (splits (lit "-") t1))
    (splits re_Y s).

(** [int(text)] on the text of a group, which holds decimal digits and,
    for the day, possibly a blank before them: the digits are read in
    base 10, each with its value, and the blank is skipped. *)
Fixpoint int_acc (s : list N) (acc : Z) : Z :=
  match s with
  | [] => acc
  | c :: t =>
      match digit_value c with
      | Some v => int_acc t (acc * 10 + v)
      | None => int_acc t acc
      end
  end.

Definition int (s : list N) : Z := int_acc s 0.

(** [None] stands for the [ValueError] of [strptime]: the text does not
    match the format, text is left over after the match, or the fields are
    not a date ([datetime_date(year, month, day)] refuses them). *)
Definition strptime_Ymd (date_string : string) : option datetime :=
  match decode date_string with
  | None => None
  | Some data_string =>
      match format_matches data_string with
      | [] => None
      | (Y, m, d, rest) :: _ =>
          match rest with
          | _ :: _ => None
          | [] =>
              let date := mkDatetime (int Y) (int m) (int d) in
              if valid date then Some date else None
          end
      end
  end.

End Directives.

End Strptime.

(* ================================================================== *)
(** ** [functools.lru_cache] *)

Module LruCache.
Section Cache.

Variables K V : Type.
Variable key_eqb : K -> K -> bool.

(** The entries, the most recently used first. *)
Definition cache : Type := list (K * V).

Fixpoint lookup (k : K) (c : cache) : option V :=
  match c with
  | [] => None
  | (k', v) :: rest => if key_eqb k k' then Some v else lookup k rest
  end.

Fixpoint remove (k : K) (c : cache) : cache :=
  match c with
  | [] => []
  | (k', v) :: rest =>
      if key_eqb k k' then remove k rest else (k', v) :: remove k rest
  end.

(** One call of the wrapped function. A hit moves the entry to the front
    and returns its value. A miss runs [user_function]; its result is
    stored at the front, the oldest entry making room once [maxsize]
    entries are held; an exception is passed on and nothing is stored. *)
Definition call (maxsize : nat) (user_function : K -> result V)
    (k : K) (c : cache) : result V * cache :=
  match lookup k c with
  | Some v => (Return v, (k, v) :: remove k c)
  | None =>
      match user_function k with
      | Raise e => (Raise e, c)
      | Return v =>
          (Return v,
           (k, v)
           :: (if (List.length c <? maxsize)%nat then c else removelast c))
      end
  end.

(** Every entry holds what [user_function] returns for its key. *)
Definition sound (user_function : K -> result V) (c : cache) : Prop :=
  forall k v, lookup k c = Some v -> user_function k = Return v.

End Cache.
End LruCache.

(* ================================================================== *)
(** ** Stand-ins for the external collaborators *)

(** Modelled from the spec: the holiday calendar ([holidays.Australia]) is
    an external library. This instance holds the one holiday the spec
    names as a holiday in any jurisdiction, New Year's Day on 1 January,
    for each of the years it is built with, and nothing else; a national
    holiday, it is in the set whether a province is named or not. *)
Definition new_year_calendar (years : list Z) (prov : option string)
    (date : datetime) : bool :=
  existsb (Z.eqb (year date)) years && (month date =? 1) && (day date =? 1).

(** The calendar with no holiday at all. *)
Definition no_holidays (years : list Z) (prov : option string)
    (date : datetime) : bool := false.

Definition two_digits (n : Z) : string :=
  String (ascii_of_nat (Z.to_nat (48 + n / 10 mod 10)))
    (String (ascii_of_nat (Z.to_nat (48 + n mod 10))) EmptyString).

(** A rendering of [strftime("%Y-%m-%d")] with every field zero-padded. *)
Definition iso_text (date : datetime) : string :=
  (two_digits (year date / 100) ++ two_digits (year date) ++ "-"
   ++ two_digits (month date) ++ "-" ++ two_digits (day date))%string.

(** The decimal digits of Unicode 14.0, the database of CPython 3.11: 66
    runs of ten characters, each run the digits 0 to 9 of one script,
    given by the first character of the run; the first run is ASCII, the
    second the Arabic-Indic digits, the 37th the full-width digits. *)
Definition decimal_runs_14 : list N :=
  [48; 1632; 1776; 1984; 2406; 2534; 2662; 2790; 2918; 3046; 3174; 3302;
   3430; 3558; 3664; 3792; 3872; 4160; 4240; 6112; 6160; 6470; 6608;
   6784; 6800; 6992; 7088; 7232; 7248; 42528; 43216; 43264; 43472;
   43504; 43600; 44016; 65296; 66720; 68912; 69734; 69872; 69942; 70096;
   70384; 70736; 70864; 71248; 71360; 71472; 71904; 72016; 72784; 73040;
   73120; 92768; 92864; 93008; 120782; 120792; 120802; 120812; 120822;
   123200; 123632; 125264; 130032]%N.

Definition decimal_14 (c : N) : option Z :=
  match find (fun s => (s <=? c)%N && (c <? s + 10)%N) decimal_runs_14 with
  | Some s => Some (Z.of_N (c - s))
  | None => None
  end.

(* ================================================================== *)
(** ** [main.py] *)

Section Service.

(** The decimal digits of the interpreter's Unicode database, by which
    [strptime] reads a date. *)
Variable unicode_decimal : N -> option Z.

(** [Australia(years=.., prov=..)] followed by the membership test
    [date in holidays]: the external holiday calendar. *)
Variable Australia : list Z -> option string -> datetime -> bool.

(** [day.strftime("%Y-%m-%d")], the platform's rendering of a date. *)
Variable strftime_Ymd : datetime -> string.

Definition AUSTRALIAN_STATES : list string :=
  ["ACT"; "NSW"; "NT"; "QLD"; "SA"; "TAS"; "VIC"; "WA"].

Definition get_holidays (state : option string) : datetime -> bool :=
  Australia (range2 2000 2050) state.

Definition is_working_day (date : datetime) (state : option string) : bool :=
  let holidays := get_holidays state in
  (weekday date <? 5) && negb (holidays date).

(** [sum(1 for day in days
          if is_working_day(start_date + timedelta(days=day), state))],
    the running total in [acc]. *)
Fixpoint sum_working_days (start_date : datetime) (state : option string)
    (days : list Z) (acc : Z) : result Z :=
  match days with
  | [] => Return acc
  | day :: rest =>
      date <- add_days start_date day ;;
      sum_working_days start_date state rest
        (if is_working_day date state then acc + 1 else acc)
  end.

(** The arguments of one call, which [lru_cache] uses as the key. *)
Definition key : Type := datetime * datetime * option string.

Definition state_eqb (a b : option string) : bool :=
  match a, b with
  | None, None => true
  | Some x, Some y => String.eqb x y
  | _, _ => false
  end.

Definition key_eqb (a b : key) : bool :=
  let '(s1, e1, st1) := a in
  let '(s2, e2, st2) := b in
  Calendar.eqb s1 s2 && Calendar.eqb e1 e2 && state_eqb st1 st2.

(** The body of [count_working_days], under the decorator. *)
Definition count_working_days_body (k : key) : result Z :=
  let '(start_date, end_date, state) := k in
  sum_working_days start_date state
    (range (sub_days end_date start_date + 1)) 0.

Definition count_cache : Type := LruCache.cache key Z.

(** [@lru_cache(maxsize=1000) def count_working_days(..)] *)
Definition count_working_days (start_date end_date : datetime)
    (state : option string) (c : count_cache) : result Z * count_cache :=
  LruCache.call key Z key_eqb 1000 count_working_days_body
    (start_date, end_date, state) c.

Definition parse_date (date_str : string) : result datetime :=
  match Strptime.strptime_Ymd unicode_decimal date_str with
  | Some date => Return date
  | None => Raise (HTTPException 400 "Invalid date format. Use YYYY-MM-DD")
  end.

(** [state and state not in AUSTRALIAN_STATES] *)
Definition unknown_state (state : option string) : bool :=
  match state with
  | None => false
  | Some s =>
      negb (String.eqb s "") && negb (existsb (String.eqb s) AUSTRALIAN_STATES)
  end.

Definition inverted_detail : string :=
  "Start date must be before or equal to end date".

(** [f"Invalid state. Must be one of {', '.join(AUSTRALIAN_STATES)}"] *)
Definition invalid_state_detail : string :=
  ("Invalid state. Must be one of "
   ++ String.concat ", " AUSTRALIAN_STATES)%string.

(** [GET /working-days]: the value under ["working_days"] of the body, or
    the exception raised; the cache is module state, passed through. *)
Definition get_working_days (start_date end_date : string)
    (state : option string) (c : count_cache) : result Z * count_cache :=
  match parse_date start_date with
  | Raise e => (Raise e, c)
  | Return start =>
      match parse_date end_date with
      | Raise e => (Raise e, c)
      | Return end_ =>
          if gtb start end_ then
            (Raise (HTTPException 400 inverted_detail), c)
          else if unknown_state state then
            (Raise (HTTPException 400 invalid_state_detail), c)
          else count_working_days start end_ state c
      end
  end.

(** [[start + timedelta(days=x) for x in xs
      if is_working_day(start + timedelta(days=x), state)]] *)
Fixpoint working_days_of (start : datetime) (state : option string)
    (xs : list Z) : result (list datetime) :=
  match xs with
  | [] => Return []
  | x :: rest =>
      date <- add_days start x ;;
      if is_working_day date state then
        item <- add_days start x ;;
        items <- working_days_of start state rest ;;
        Return (item :: items)
      else working_days_of start state rest
  end.

(** The list [working_days] of [get_working_days_list] (lines 90-94). *)
Definition working_days_list (start end_ : datetime) (state : option string)
  : result (list datetime) :=
  working_days_of start state (range (sub_days end_ start + 1)).

(** [GET /working-days-list]: the list under ["working_days"]. *)
Definition get_working_days_list (start_date end_date : string)
    (state : option string) : result (list string) :=
  start <- parse_date start_date ;;
  end_ <- parse_date end_date ;;
  if gtb start end_ then Raise (HTTPException 400 inverted_detail)
  else if unknown_state state then
    Raise (HTTPException 400 invalid_state_detail)
  else
    working_days <- working_days_list start end_ state ;;
    Return (map strftime_Ymd working_days).

End Service.

(* ================================================================== *)
(** ** Vocabulary of the statements *)

Import Strptime.

(** The month tables with the leap flag as a parameter, and the checks
    run over them once for all. *)
Definition months : list Z := [1; 2; 3; 4; 5; 6; 7; 8; 9; 10; 11; 12].

Definition dim (leapyear : bool) (m : Z) : Z :=
  if (m =? 2) && leapyear then 29 else index _DAYS_IN_MONTH m.

Definition dbm (leapyear : bool) (m : Z) : Z :=
  index _DAYS_BEFORE_MONTH m + (if (2 <? m) && leapyear then 1 else 0).

Definition month_day_ok (leapyear : bool) (n : Z) : bool :=
  let '(m, d) := _month_day leapyear n in
  (1 <=? m) && (m <=? 12) && (1 <=? d) && (d <=? dim leapyear m)
  && (dbm leapyear m + d =? n + 1).

Definition months_ok (leapyear : bool) : bool :=
  forallb (fun m =>
    (0 <=? dbm leapyear m)
    && (dbm leapyear m + dim leapyear m <=? (if leapyear then 366 else 365))
    && forallb (fun m' =>
         implb (m <? m') (dbm leapyear m + dim leapyear m <=? dbm leapyear m'))
       months) months.

(** The language of a regular expression: the texts it matches whole. *)
Fixpoint matches (r : re) (m : list N) : Prop :=
  match r with
  | Class p => exists c, m = [c] /\ p c = true
  | Cat r1 r2 => exists m1 m2, m = m1 ++ m2 /\ matches r1 m1 /\ matches r2 m2
  | Alt r1 r2 => matches r1 m \/ matches r2 m
  end.

Definition is_digit (c : ascii) : bool :=
  (48 <=? nat_of_ascii c)%nat && (nat_of_ascii c <=? 57)%nat.

(** Four decimal digits, of any script. *)
Definition year_text (unicode_decimal : N -> option Z) (Y : list N) : Prop :=
  exists a b c e,
    Y = [a; b; c; e]
    /\ is_decimal unicode_decimal a = true
    /\ is_decimal unicode_decimal b = true
    /\ is_decimal unicode_decimal c = true
    /\ is_decimal unicode_decimal e = true.

(** 1 to 12 in ASCII digits, the leading zero optional. *)
Definition months_text : list (list N) :=
  map codes
    ["1"; "2"; "3"; "4"; "5"; "6"; "7"; "8"; "9";
     "01"; "02"; "03"; "04"; "05"; "06"; "07"; "08"; "09";
     "10"; "11"; "12"].

(** The days written in ASCII alone: 1 to 9, the leading zero optional or
    a blank in its place, and 30 and 31. *)
Definition days_plain : list (list N) :=
  map codes
    ["1"; "2"; "3"; "4"; "5"; "6"; "7"; "8"; "9";
     " 1"; " 2"; " 3"; " 4"; " 5"; " 6"; " 7"; " 8"; " 9";
     "01"; "02"; "03"; "04"; "05"; "06"; "07"; "08"; "09";
     "30"; "31"].

(** A day text: one of [days_plain], or an ASCII 1 or 2 followed by a
    decimal digit of any script (10 to 29). *)
Definition day_text (unicode_decimal : N -> option Z) (d : list N) : Prop :=
  In d days_plain
  \/ exists c,
       is_decimal unicode_decimal c = true
       /\ (d = [49%N; c] \/ d = [50%N; c]).

(** [text] reads as the date [date]: year, month and day texts joined by
    hyphens, whose numbers are the fields of a date of the calendar. *)
Definition date_text (unicode_decimal : N -> option Z)
    (text : string) (date : datetime) : Prop :=
  exists Y m d,
    decode text = Some (Y ++ codes "-" ++ m ++ codes "-" ++ d)
    /\ year_text unicode_decimal Y /\ In m months_text
    /\ day_text unicode_decimal d
    /\ date = mkDatetime (int unicode_decimal Y) (int unicode_decimal m)
                (int unicode_decimal d)
    /\ valid date = true.

(** The fixed pattern YYYY-MM-DD read by the letter: four digits, a hyphen,
    two digits, a hyphen, two digits, and nothing else; the digits are
    those of ASCII. *)
Definition strict_YYYY_MM_DD (text : string) : bool :=
  match text with
  | String y1 (String y2 (String y3 (String y4 (String h1
      (String m1 (String m2 (String h2 (String d1 (String d2
         EmptyString))))))))) =>
      is_digit y1 && is_digit y2 && is_digit y3 && is_digit y4
      && Ascii.eqb h1 "-" && is_digit m1 && is_digit m2
      && Ascii.eqb h2 "-" && is_digit d1 && is_digit d2
  | _ => false
  end.

(** The date a text of that pattern denotes. *)
Definition fields_of (unicode_decimal : N -> option Z) (text : string)
  : datetime :=
  mkDatetime (int unicode_decimal (codes (substring 0 4 text)))
    (int unicode_decimal (codes (substring 5 2 text)))
    (int unicode_decimal (codes (substring 8 2 text))).

(** A text of ASCII characters only. *)
Definition is_ascii (text : string) : bool :=
  forallb (fun c => (N_of_ascii c <? 128)%N) (list_ascii_of_string text).


Definition two_chars (a b : ascii) : string :=
  String a (String b EmptyString).

(** [start + timedelta(days=x)] when it does not overflow. *)
Definition day_at (start : datetime) (x : Z) : datetime :=
  fromordinal (toordinal start + x).

(** Every entry of the cache holds what the body returns for its key. *)
Definition coherent (Australia : list Z -> option string -> datetime -> bool)
    (c : count_cache) : Prop :=
  LruCache.sound key Z key_eqb (count_working_days_body Australia) c.

Definition date_lt (a b : datetime) : Prop := ltb a b = true.

(** The offsets [xs] from [start] stay inside the calendar. *)
Definition in_calendar (start : datetime) (xs : list Z) : Prop :=
  forall x, In x xs -> 0 < toordinal start + x <= _MAXORDINAL.

(** The working days among the dates [start + x], [x] in [xs]. *)
Definition working_among
    (Australia : list Z -> option string -> datetime -> bool)
    (start : datetime) (state : option string) (xs : list Z)
  : list datetime :=
  filter (fun date => is_working_day Australia date state)
    (map (day_at start) xs).

(** The dates of the examples. *)
Definition jan_1 : datetime := mkDatetime 2024 1 1.
Definition jan_7 : datetime := mkDatetime 2024 1 7.
Definition jan_14 : datetime := mkDatetime 2024 1 14.

(** One request to [/working-days]: the two date texts and the state. *)
Definition request : Type := (string * string * option string)%type.

(** The cache after the requests of [history], served in order from an
    empty cache. *)
Definition cache_after (unicode_decimal : N -> option Z)
    (Australia : list Z -> option string -> datetime -> bool)
    (history : list request) : count_cache :=
  fold_left
    (fun c '(start_date, end_date, state) =>
       snd (get_working_days unicode_decimal Australia start_date end_date
              state c))
    history [].

(* ================================================================== *)
(** * Properties *)

(** ** The calendar *)

Lemma is_leap_spec y :
  _is_leap y = true <-> (y mod 4 = 0 /\ (y mod 100 <> 0 \/ y mod 400 = 0)).
Proof.
  unfold _is_leap.
  rewrite andb_true_iff, orb_true_iff, negb_true_iff, !Z.eqb_eq, Z.eqb_neq.
  tauto.
Qed.

Lemma days_before_year_succ y :
  _days_before_year (y + 1)
  = _days_before_year y + (if _is_leap y then 366 else 365).
Proof.
  unfold _days_before_year.
  destruct (_is_leap y) eqn:L.
  - apply is_leap_spec in L. Z.to_euclidean_division_equations. lia.
  - assert (~ (y mod 4 = 0 /\ (y mod 100 <> 0 \/ y mod 400 = 0))) as N
      by (rewrite <- is_leap_spec; congruence).
    Z.to_euclidean_division_equations. lia.
Qed.

Lemma days_before_year_cycle a b c e :
  0 <= b <= 3 -> 0 <= c <= 24 -> 0 <= e <= 3 ->
  _days_before_year (a * 400 + 1 + b * 100 + c * 4 + e)
  = a * 146097 + b * 36524 + c * 1461 + e * 365.
Proof.
  intros. unfold _days_before_year.
  Z.to_euclidean_division_equations. lia.
Qed.

Lemma is_leap_cycle a b c e :
  0 <= b <= 3 -> 0 <= c <= 24 -> 0 <= e <= 3 ->
  _is_leap (a * 400 + 1 + b * 100 + c * 4 + e)
  = (e =? 3) && (negb (c =? 24) || (b =? 3)).
Proof.
  intros. apply eq_true_iff_eq.
  rewrite is_leap_spec, andb_true_iff, orb_true_iff, negb_true_iff,
    !Z.eqb_eq, Z.eqb_neq.
  Z.to_euclidean_division_equations. lia.
Qed.

Lemma in_range2 lo hi x : In x (range2 lo hi) <-> lo <= x < hi.
Proof.
  unfold range2. rewrite in_map_iff. split.
  - intros (k & <- & Hk). apply in_seq in Hk. lia.
  - intros Hx. exists (Z.to_nat (x - lo)). split; [lia|]. apply in_seq. lia.
Qed.

Lemma in_range n x : In x (range n) <-> 0 <= x < n.
Proof. apply in_range2. Qed.

Lemma month_day_table :
  forallb (month_day_ok false) (range 365) = true
  /\ forallb (month_day_ok true) (range 366) = true.
Proof. split; vm_compute; reflexivity. Qed.

Lemma month_day_spec y n :
  0 <= n < (if _is_leap y then 366 else 365) ->
  let '(m, d) := _month_day (_is_leap y) n in
  1 <= m <= 12 /\ 1 <= d <= _days_in_month y m
  /\ _days_before_month y m + d = n + 1.
Proof.
  intros Hn.
  assert (month_day_ok (_is_leap y) n = true) as Hok.
  { destruct month_day_table as [T0 T1].
    destruct (_is_leap y);
      [ rewrite forallb_forall in T1; apply T1
      | rewrite forallb_forall in T0; apply T0 ];
      apply in_range; lia. }
  unfold month_day_ok, dim, dbm in Hok.
  unfold _days_in_month, _days_before_month.
  destruct (_month_day (_is_leap y) n) as [m d].
  rewrite !andb_true_iff, !Z.leb_le, Z.eqb_eq in Hok. lia.
Qed.

Lemma ord2ymd_spec n :
  1 <= n ->
  let '(y, m, d) := _ord2ymd n in
  1 <= y /\ 1 <= m <= 12 /\ 1 <= d <= _days_in_month y m
  /\ _ymd2ord y m d = n.
Proof.
  intros Hn. unfold _ord2ymd, _DI400Y, _DI100Y, _DI4Y.
  set (n0 := n - 1).
  set (n400 := n0 / 146097). set (r400 := n0 mod 146097).
  set (n100 := r400 / 36524). set (r100 := r400 mod 36524).
  set (n4 := r100 / 1461). set (r4 := r100 mod 1461).
  set (n1 := r4 / 365). set (r1 := r4 mod 365).
  assert (0 <= n400 /\ 0 <= n100 <= 4 /\ 0 <= n4 <= 24 /\ 0 <= n1 <= 4
          /\ 0 <= r1 < 365
          /\ n0 = n400 * 146097 + n100 * 36524 + n4 * 1461 + n1 * 365 + r1
          /\ (n100 = 4 -> n4 = 0 /\ n1 = 0 /\ r1 = 0)
          /\ (n1 = 4 -> r1 = 0 /\ n4 <= 23)) as
    (H400 & H100 & H4 & H1 & Hr & Hsum & Hc & Hy).
  { subst n400 r400 n100 r100 n4 r4 n1 r1.
    Z.to_euclidean_division_equations. lia. }
  clearbody n400 n100 n4 n1 r1. clear r400 r100 r4.
  destruct ((n1 =? 4) || (n100 =? 4)) eqn:Last.
  - (* the last day of a 4-year or 400-year cycle *)
    assert (n1 = 4 \/ n100 = 4) as Hl
      by (apply orb_true_iff in Last; rewrite !Z.eqb_eq in Last; exact Last).
    assert (exists b c,
               0 <= b <= 3 /\ 0 <= c <= 24 /\ (c = 24 -> b = 3)
               /\ n400 * 400 + 1 + n100 * 100 + n4 * 4 + n1 - 1
                  = n400 * 400 + 1 + b * 100 + c * 4 + 3
               /\ n0 = n400 * 146097 + b * 36524 + c * 1461 + 3 * 365 + 365)
      as (b & c & Hb & Hcc & Hbc & Hyear & Hn0).
    { destruct Hl as [E | E].
      - exists n100, n4. lia.
      - exists 3, 24. lia. }
    rewrite Hyear.
    set (y := n400 * 400 + 1 + b * 100 + c * 4 + 3).
    assert (_is_leap y = true) as HL.
    { unfold y. rewrite is_leap_cycle by lia.
      destruct (Z.eqb_spec c 24) as [E | E]; simpl.
      - apply Z.eqb_eq. lia.
      - reflexivity. }
    assert (_days_before_year y
            = n400 * 146097 + b * 36524 + c * 1461 + 3 * 365) as Hdby
      by (apply days_before_year_cycle; lia).
    unfold _ymd2ord, _days_in_month, _days_before_month.
    rewrite Hdby, HL.
    change (index _DAYS_IN_MONTH 12) with 31.
    change (index _DAYS_BEFORE_MONTH 12) with 334.
    cbn. subst y. lia.
  - apply orb_false_iff in Last. rewrite !Z.eqb_neq in Last.
    destruct Last as [L1 L100].
    set (y := n400 * 400 + 1 + n100 * 100 + n4 * 4 + n1).
    assert (_is_leap y = (n1 =? 3) && (negb (n4 =? 24) || (n100 =? 3))) as HL
      by (apply is_leap_cycle; lia).
    rewrite <- HL.
    assert (_days_before_year y
            = n400 * 146097 + n100 * 36524 + n4 * 1461 + n1 * 365) as Hdby
      by (apply days_before_year_cycle; lia).
    assert (0 <= r1 < (if _is_leap y then 366 else 365)) as Hr'
      by (destruct (_is_leap y); lia).
    pose proof (month_day_spec y r1 Hr') as Hmd.
    destruct (_month_day (_is_leap y) r1) as [m d].
    unfold _ymd2ord. rewrite Hdby. subst y. lia.
Qed.

Lemma days_before_year_mono y1 y2 :
  y1 <= y2 -> _days_before_year y1 <= _days_before_year y2.
Proof.
  intros H. unfold _days_before_year.
  Z.to_euclidean_division_equations. lia.
Qed.

Lemma in_months m : 1 <= m <= 12 -> In m months.
Proof.
  intros H.
  assert (m = 1 \/ m = 2 \/ m = 3 \/ m = 4 \/ m = 5 \/ m = 6 \/ m = 7
          \/ m = 8 \/ m = 9 \/ m = 10 \/ m = 11 \/ m = 12) as C by lia.
  unfold months. simpl. intuition auto.
Qed.

Lemma months_table : months_ok false = true /\ months_ok true = true.
Proof. split; vm_compute; reflexivity. Qed.

Lemma months_spec y m :
  1 <= m <= 12 ->
  0 <= _days_before_month y m
  /\ _days_before_month y m + _days_in_month y m
     <= (if _is_leap y then 366 else 365)
  /\ forall m', 1 <= m' <= 12 -> m < m' ->
       _days_before_month y m + _days_in_month y m <= _days_before_month y m'.
Proof.
  intros Hm.
  assert (months_ok (_is_leap y) = true) as Hok
    by (destruct months_table; destruct (_is_leap y); assumption).
  unfold months_ok in Hok. rewrite forallb_forall in Hok.
  specialize (Hok m (in_months m Hm)).
  rewrite !andb_true_iff, !Z.leb_le, forallb_forall in Hok.
  destruct Hok as [[H0 H1] H2].
  change (_days_before_month y m) with (dbm (_is_leap y) m).
  change (_days_in_month y m) with (dim (_is_leap y) m).
  repeat split; try assumption.
  intros m' Hm' Hlt. specialize (H2 m' (in_months m' Hm')).
  change (_days_before_month y m') with (dbm (_is_leap y) m').
  apply Z.ltb_lt in Hlt. rewrite Hlt in H2. simpl in H2.
  apply Z.leb_le. exact H2.
Qed.

Lemma valid_spec d :
  valid d = true <->
  1 <= year d <= 9999 /\ 1 <= month d <= 12
  /\ 1 <= day d <= _days_in_month (year d) (month d).
Proof.
  unfold valid, MINYEAR, MAXYEAR. rewrite !andb_true_iff, !Z.leb_le. lia.
Qed.

(** A valid date lies inside its year. *)
Lemma toordinal_in_year d :
  valid d = true ->
  _days_before_year (year d) < toordinal d
  <= _days_before_year (year d + 1).
Proof.
  intros V. apply valid_spec in V. destruct V as (Hy & Hm & Hd).
  destruct (months_spec (year d) (month d) Hm) as (H0 & H1 & _).
  rewrite days_before_year_succ. unfold toordinal, _ymd2ord.
  destruct (_is_leap (year d)); lia.
Qed.

Lemma toordinal_lt a b :
  valid a = true -> valid b = true ->
  compare a b = Lt -> toordinal a < toordinal b.
Proof.
  intros Va Vb C.
  pose proof (toordinal_in_year a Va) as Ia.
  pose proof (toordinal_in_year b Vb) as Ib.
  apply valid_spec in Va, Vb.
  destruct Va as (Hya & Hma & Hda), Vb as (Hyb & Hmb & Hdb).
  unfold compare in C.
  destruct (Z.compare_spec (year a) (year b)) as [Ey | Ly | Gy];
    try discriminate.
  - destruct (Z.compare_spec (month a) (month b)) as [Em | Lm | Gm];
      try discriminate.
    + rewrite Z.compare_lt_iff in C.
      unfold toordinal, _ymd2ord. rewrite Ey, Em. lia.
    + destruct (months_spec (year a) (month a) Hma) as (_ & _ & Hnext).
      specialize (Hnext (month b) Hmb Lm).
      unfold toordinal, _ymd2ord. rewrite <- Ey. lia.
  - pose proof (days_before_year_mono (year a + 1) (year b)). lia.
Qed.

Lemma compare_antisym a b : compare b a = CompOpp (compare a b).
Proof.
  unfold compare.
  rewrite (Z.compare_antisym (year a)), (Z.compare_antisym (month a)),
    (Z.compare_antisym (day a)).
  destruct (year a ?= year b); simpl; try reflexivity.
  destruct (month a ?= month b); reflexivity.
Qed.

Lemma compare_eq a b : compare a b = Eq -> a = b.
Proof.
  unfold compare. destruct a as [ya ma da], b as [yb mb db]. simpl.
  destruct (Z.compare_spec ya yb); try discriminate.
  destruct (Z.compare_spec ma mb); try discriminate.
  intros E. apply Z.compare_eq in E. congruence.
Qed.

(** On valid dates the field-wise comparison is the comparison of the
    ordinals. *)
Lemma compare_toordinal a b :
  valid a = true -> valid b = true ->
  compare a b = (toordinal a ?= toordinal b).
Proof.
  intros Va Vb. destruct (compare a b) eqn:C; symmetry.
  - apply compare_eq in C. subst. apply Z.compare_refl.
  - apply Z.compare_lt_iff. apply toordinal_lt; assumption.
  - apply Z.compare_gt_iff. apply toordinal_lt; try assumption.
    rewrite compare_antisym, C. reflexivity.
Qed.

Lemma toordinal_range d :
  valid d = true -> 1 <= toordinal d <= _MAXORDINAL.
Proof.
  intros V. pose proof (toordinal_in_year d V) as I.
  apply valid_spec in V. destruct V as (Hy & _).
  pose proof (days_before_year_mono 1 (year d)).
  pose proof (days_before_year_mono (year d + 1) 10000).
  change (_days_before_year 1) with 0 in *.
  change (_days_before_year 10000) with 3652059 in *.
  unfold _MAXORDINAL. lia.
Qed.

Lemma fromordinal_valid n :
  1 <= n <= _MAXORDINAL -> valid (fromordinal n) = true.
Proof.
  intros Hn. pose proof (ord2ymd_spec n (proj1 Hn)) as S.
  unfold fromordinal. destruct (_ord2ymd n) as [[y m] d].
  destruct S as (Hy & Hm & Hd & Hord).
  apply valid_spec. simpl. repeat split; try lia.
  destruct (Z_le_gt_dec y 9999) as [|Hbig]; [assumption|].
  pose proof (days_before_year_mono 10000 y).
  destruct (months_spec y m Hm) as (H0 & _).
  change (_days_before_year 10000) with 3652059 in *.
  unfold _ymd2ord, _MAXORDINAL in *. lia.
Qed.

Lemma toordinal_fromordinal n :
  1 <= n -> toordinal (fromordinal n) = n.
Proof.
  intros Hn. pose proof (ord2ymd_spec n Hn) as S.
  unfold fromordinal, toordinal. destruct (_ord2ymd n) as [[y m] d].
  simpl. tauto.
Qed.

Lemma fromordinal_toordinal d :
  valid d = true -> fromordinal (toordinal d) = d.
Proof.
  intros V. pose proof (toordinal_range d V) as R.
  apply compare_eq. rewrite compare_toordinal.
  - rewrite toordinal_fromordinal by lia. apply Z.compare_refl.
  - apply fromordinal_valid. exact R.
  - exact V.
Qed.

(** ** [strptime] *)

Lemma string_app_assoc (a b c : string) :
  ((a ++ b) ++ c = a ++ (b ++ c))%string.
Proof. induction a as [| x a IH]; simpl; [reflexivity | now rewrite IH]. Qed.

Section StrptimeFacts.

Variable unicode_decimal : N -> option Z.

Abbreviation re_Y := (Strptime.re_Y unicode_decimal).
Abbreviation re_d := (Strptime.re_d unicode_decimal).
Abbreviation digit_value := (Strptime.digit_value unicode_decimal).
Abbreviation is_decimal := (Strptime.is_decimal unicode_decimal).
Abbreviation format_matches := (Strptime.format_matches unicode_decimal).
Abbreviation int := (Strptime.int unicode_decimal).
Abbreviation strptime_Ymd := (Strptime.strptime_Ymd unicode_decimal).
Abbreviation year_text := (year_text unicode_decimal).
Abbreviation day_text := (day_text unicode_decimal).
Abbreviation date_text := (date_text unicode_decimal).

Lemma splits_sound r : forall s m t,
  In (m, t) (splits r s) -> s = m ++ t /\ matches r m.
Proof.
  induction r as [p | r1 IH1 r2 IH2 | r1 IH1 r2 IH2]; intros s m t Hin;
    simpl in *.
  - destruct s as [| c s']; [contradiction|].
    destruct (p c) eqn:Hp; [|contradiction].
    destruct Hin as [E | []]. inversion E; subst. split; [reflexivity|].
    exists c. auto.
  - apply in_flat_map in Hin. destruct Hin as ([m1 t1] & H1 & H2).
    apply in_map_iff in H2. destruct H2 as ([m2 t2] & E & H2).
    inversion E; subst.
    apply IH1 in H1. apply IH2 in H2. destruct H1 as [-> M1], H2 as [-> M2].
    split.
    + rewrite app_assoc. reflexivity.
    + exists m1, m2. auto.
  - apply in_app_or in Hin. destruct Hin as [H | H].
    + apply IH1 in H. tauto.
    + apply IH2 in H. tauto.
Qed.

(** A character of the class [[lo-hi]] is one of the characters between. *)
Lemma between_inv (lo hi c : N) :
  (lo <=? c)%N && (c <=? hi)%N = true ->
  In c (map N.of_nat (seq (N.to_nat lo) (S (N.to_nat hi) - N.to_nat lo))).
Proof.
  intros H. apply andb_true_iff in H. destruct H as [H1 H2].
  apply N.leb_le in H1, H2.
  apply in_map_iff. exists (N.to_nat c). split.
  - apply N2Nat.id.
  - apply in_seq. lia.
Qed.

Ltac char_cases H :=
  apply between_inv in H; vm_compute in H;
  repeat (destruct H as [H | H]; [symmetry in H; subst|]); try contradiction.

Ltac one_char H :=
  let c := fresh "c" in let E := fresh "E" in
  destruct H as (c & E & H); subst;
  first [ apply N.eqb_eq in H; vm_compute in H; subst | char_cases H ].

Ltac reveal H :=
  cbv beta iota delta
    [matches re_m Strptime.re_d Strptime.re_Y digit lit between] in H.

Ltac in_list := simpl; repeat (first [ left; reflexivity | right ]).

Lemma matches_dash x : matches (lit "-") x -> x = codes "-".
Proof. intros H. reveal H. one_char H. reflexivity. Qed.

Lemma matches_month m : matches re_m m -> In m months_text.
Proof.
  intros H. reveal H.
  destruct H as [(m1 & m2 & -> & H1 & H2) | [(m1 & m2 & -> & H1 & H2) | H]].
  - one_char H1; one_char H2; in_list.
  - one_char H1; one_char H2; in_list.
  - one_char H; in_list.
Qed.

Lemma matches_day d : matches re_d d -> day_text d.
Proof.
  intros H. reveal H.
  destruct H as [(m1 & m2 & -> & H1 & H2)
                | [(m1 & m2 & -> & H1 & (c & -> & Hc))
                  | [(m1 & m2 & -> & H1 & H2)
                    | [H | (m1 & m2 & -> & H1 & H2)]]]].
  - left. one_char H1; one_char H2; in_list.
  - right. exists c. split; [exact Hc|]. one_char H1; auto.
  - left. one_char H1; one_char H2; in_list.
  - left. one_char H; in_list.
  - left. one_char H1; one_char H2; in_list.
Qed.

Lemma matches_year Y : matches re_Y Y -> year_text Y.
Proof.
  intros H. reveal H.
  destruct H as (m1 & r1 & -> & (a & -> & Ha) & m2 & r2 & ->
                 & (b & -> & Hb) & m3 & r3 & -> & (c & -> & Hc) & e & -> & He).
  exists a, b, c, e. repeat split; assumption.
Qed.

Lemma format_matches_sound s Y m d rest :
  In (Y, m, d, rest) (format_matches s) ->
  s = Y ++ codes "-" ++ m ++ codes "-" ++ d ++ rest
  /\ year_text Y /\ In m months_text /\ day_text d.
Proof.
  unfold Strptime.format_matches. intros H.
  apply in_flat_map in H. destruct H as ([Y' t1] & HY & H).
  apply in_flat_map in H. destruct H as ([h1 t2] & Hh1 & H).
  apply in_flat_map in H. destruct H as ([m' t3] & Hm & H).
  apply in_flat_map in H. destruct H as ([h2 t4] & Hh2 & H).
  apply in_map_iff in H. destruct H as ([d' t5] & E & Hd).
  inversion E; subst.
  apply splits_sound in HY, Hh1, Hm, Hh2, Hd.
  destruct HY as [-> MY], Hh1 as [-> M1], Hm as [-> Mm], Hh2 as [-> M2],
    Hd as [-> Md].
  apply matches_dash in M1, M2. subst.
  auto using matches_year, matches_month, matches_day.
Qed.

Lemma splits_class p c t :
  p c = true -> splits (Class p) (c :: t) = [([c], t)].
Proof. intros H. simpl. rewrite H. reflexivity. Qed.

Lemma splits_cat_class p r c t :
  p c = true ->
  splits (Cat (Class p) r) (c :: t)
  = map (fun '(m2, t2) => (c :: m2, t2)) (splits r t).
Proof.
  intros H. simpl. rewrite H. simpl. rewrite app_nil_r.
  apply map_ext. intros [m2 t2]. reflexivity.
Qed.

Lemma splits_hyphen t :
  splits (lit "-") (codes "-" ++ t) = [(codes "-", t)].
Proof. reflexivity. Qed.

Lemma year_splits Y t :
  year_text Y -> splits re_Y (Y ++ t) = [(Y, t)].
Proof.
  intros (a & b & c & e & -> & Ha & Hb & Hc & He).
  unfold Strptime.re_Y, digit. cbn [app].
  rewrite !splits_cat_class by assumption.
  rewrite splits_class by assumption. reflexivity.
Qed.

Lemma flat_map_single {A B} (f : A -> list B) (x : A) :
  flat_map f [x] = f x.
Proof. simpl. apply app_nil_r. Qed.

Lemma map_of_flat_map {A B C} (g : B -> C) (f : A -> list B) (l : list A) :
  map g (flat_map f l) = flat_map (fun x => map g (f x)) l.
Proof.
  induction l as [| x l IH]; simpl; [reflexivity|].
  rewrite map_app, IH. reflexivity.
Qed.

(** After the hyphen that must follow it, a month text is matched in one
    way only. *)
Lemma month_then_hyphen {B} (F : list N -> list N -> list B) m t :
  In m months_text ->
  flat_map (fun '(m', t3) =>
    flat_map (fun '(_, t4) => F m' t4) (splits (lit "-") t3))
    (splits re_m (m ++ codes "-" ++ t))
  = F m t.
Proof.
  intros Hm. unfold months_text in Hm. cbn [map] in Hm.
  repeat (destruct Hm as [<- | Hm];
          [vm_compute codes; cbn; rewrite ?app_nil_r; reflexivity|]).
  contradiction.
Qed.

Lemma day_first d :
  day_text d -> exists l, splits re_d d = (d, []) :: l.
Proof.
  intros [Hd | (c & Hc & [-> | ->])].
  - unfold days_plain in Hd. cbn [map] in Hd.
    repeat (destruct Hd as [<- | Hd]; [eexists; reflexivity|]).
    contradiction.
  - unfold Strptime.re_d, digit. cbn. rewrite Hc. cbn.
    eexists. reflexivity.
  - unfold Strptime.re_d, digit. cbn. rewrite Hc. cbn.
    eexists. reflexivity.
Qed.

Lemma format_matches_first Y m d :
  year_text Y -> In m months_text -> day_text d ->
  exists l,
    format_matches (Y ++ codes "-" ++ m ++ codes "-" ++ d)
    = (Y, m, d, []) :: l.
Proof.
  intros HY Hm Hd. unfold Strptime.format_matches.
  rewrite (year_splits Y _ HY), flat_map_single.
  rewrite splits_hyphen, flat_map_single.
  rewrite (month_then_hyphen
             (fun m' t4 => map (fun '(d', t5) => (Y, m', d', t5))
                             (splits re_d t4)) m d Hm).
  destruct (day_first d Hd) as (l & ->). eexists. reflexivity.
Qed.

(** [strptime] with the format [%Y-%m-%d] succeeds exactly on the texts
    that read as a date, and returns that date. *)
Lemma strptime_spec s date :
  strptime_Ymd s = Some date <-> date_text s date.
Proof.
  unfold Strptime.strptime_Ymd. split.
  - destruct (decode s) as [data|] eqn:D; [|discriminate].
    destruct (format_matches data) as [| [[[Y m] d] rest] l] eqn:F;
      [discriminate|].
    destruct rest; [|discriminate].
    destruct (valid (mkDatetime (int Y) (int m) (int d))) eqn:V;
      [|discriminate].
    intros E. inversion E; subst. clear E.
    assert (In (Y, m, d, []) (format_matches data)) as Hin
      by (rewrite F; left; reflexivity).
    apply format_matches_sound in Hin.
    destruct Hin as (E & HY & Hm & Hd). rewrite app_nil_r in E. subst data.
    exists Y, m, d. auto 10.
  - intros (Y & m & d & -> & HY & Hm & Hd & -> & V).
    destruct (format_matches_first Y m d HY Hm Hd) as (l & ->).
    rewrite V. reflexivity.
Qed.

Lemma no_date_text text :
  strptime_Ymd text = None -> ~ exists date, date_text text date.
Proof.
  intros E (date & H). apply strptime_spec in H. congruence.
Qed.

(** *** Texts of ASCII *)

Lemma decode_ascii s : is_ascii s = true -> decode s = Some (codes s).
Proof.
  unfold is_ascii, codes.
  induction s as [| c s IH]; cbn [list_ascii_of_string forallb map];
    [reflexivity|].
  intros H. apply andb_true_iff in H. destruct H as [H1 H2].
  cbn [decode]. rewrite H1, (IH H2). reflexivity.
Qed.

Lemma list_ascii_of_string_app (a b : string) :
  list_ascii_of_string (a ++ b)%string
  = list_ascii_of_string a ++ list_ascii_of_string b.
Proof.
  induction a as [| x a IH]; cbn; [reflexivity | now rewrite IH].
Qed.

Lemma codes_app (a b : string) : codes (a ++ b)%string = codes a ++ codes b.
Proof. unfold codes. rewrite list_ascii_of_string_app. apply map_app. Qed.

Lemma is_ascii_app (a b : string) :
  is_ascii (a ++ b)%string = is_ascii a && is_ascii b.
Proof. unfold is_ascii. rewrite list_ascii_of_string_app. apply forallb_app.
    Qed.

(** A character of the class [[lo-hi]] of ASCII is one of the characters
    between. *)
Lemma ascii_between_inv (lo hi : nat) c :
  (lo <=? nat_of_ascii c)%nat && (nat_of_ascii c <=? hi)%nat = true ->
  In c (map ascii_of_nat (seq lo (S hi - lo))).
Proof.
  intros H. apply andb_true_iff in H. destruct H as [H1 H2].
  apply Nat.leb_le in H1, H2.
  apply in_map_iff. exists (nat_of_ascii c). split.
  - apply ascii_nat_embedding.
  - apply in_seq. lia.
Qed.

Ltac digit_cases H :=
  unfold is_digit in H; apply ascii_between_inv in H; vm_compute in H;
  repeat (destruct H as [H | H]; [symmetry in H; subst|]); try contradiction.

Ltac day_text_case :=
  first [ left; solve [in_list]
        | right; eexists; split; [| left; reflexivity]; reflexivity
        | right; eexists; split; [| right; reflexivity]; reflexivity ].

Lemma is_digit_decimal a :
  is_digit a = true ->
  is_decimal (N_of_ascii a) = true /\ (N_of_ascii a <? 128)%N = true.
Proof. intros H. digit_cases H; split; reflexivity. Qed.

Lemma days_in_month_le_31 y m : 1 <= m <= 12 -> _days_in_month y m <= 31.
Proof.
  intros Hm. apply in_months in Hm. unfold _days_in_month.
  destruct (_is_leap y); unfold months in Hm; simpl in Hm;
    repeat (destruct Hm as [<- | Hm]; [vm_compute; discriminate|]);
    contradiction.
Qed.

Lemma two_digit_month a b :
  is_digit a = true -> is_digit b = true ->
  (1 <=? int (codes (two_chars a b)))
  && (int (codes (two_chars a b)) <=? 12) = true ->
  In (codes (two_chars a b)) months_text.
Proof.
  intros Ha Hb H.
  digit_cases Ha; digit_cases Hb; vm_compute in H;
    first [ discriminate | solve [in_list] ].
Qed.

Lemma two_digit_day a b :
  is_digit a = true -> is_digit b = true ->
  (1 <=? int (codes (two_chars a b)))
  && (int (codes (two_chars a b)) <=? 31) = true ->
  day_text (codes (two_chars a b)).
Proof.
  intros Ha Hb H.
  digit_cases Ha; digit_cases Hb; vm_compute in H;
    first [ discriminate | day_text_case ].
Qed.

(** A text of the strict pattern whose fields are a date reads as that
    date. *)
Lemma strict_date_text s :
  strict_YYYY_MM_DD s = true -> valid (fields_of unicode_decimal s) = true ->
  date_text s (fields_of unicode_decimal s).
Proof.
  intros S V. unfold strict_YYYY_MM_DD in S.
  destruct s as [| y1 [| y2 [| y3 [| y4 [| h1 [| m1 [| m2 [| h2 [| d1
    [| d2 [| x s]]]]]]]]]]]; try discriminate.
  rewrite !andb_true_iff, !Ascii.eqb_eq in S.
  destruct S as (((((((((Hy1 & Hy2) & Hy3) & Hy4) & ->) & Hm1) & Hm2) & ->)
                  & Hd1) & Hd2).
  unfold fields_of in *. cbn [substring] in *.
  set (Y := String y1 (String y2 (String y3 (String y4 "")))) in *.
  fold (two_chars m1 m2) in *. fold (two_chars d1 d2) in *.
  pose proof V as V'. apply valid_spec in V'. simpl in V'.
  destruct V' as (Hy & Hm & Hd).
  pose proof (days_in_month_le_31 (int (codes Y))
                (int (codes (two_chars m1 m2))) Hm).
  destruct (is_digit_decimal _ Hy1) as [Dy1 Ay1].
  destruct (is_digit_decimal _ Hy2) as [Dy2 Ay2].
  destruct (is_digit_decimal _ Hy3) as [Dy3 Ay3].
  destruct (is_digit_decimal _ Hy4) as [Dy4 Ay4].
  destruct (is_digit_decimal _ Hm1) as [_ Am1].
  destruct (is_digit_decimal _ Hm2) as [_ Am2].
  destruct (is_digit_decimal _ Hd1) as [_ Ad1].
  destruct (is_digit_decimal _ Hd2) as [_ Ad2].
  exists (codes Y), (codes (two_chars m1 m2)), (codes (two_chars d1 d2)).
  split.
  { rewrite decode_ascii; [reflexivity|].
    unfold is_ascii, two_chars. cbn [list_ascii_of_string forallb].
    rewrite Ay1, Ay2, Ay3, Ay4, Am1, Am2, Ad1, Ad2. reflexivity. }
  split.
  { do 4 eexists. split; [reflexivity|]. auto. }
  split.
  { apply two_digit_month; try assumption.
    apply andb_true_iff. rewrite !Z.leb_le. lia. }
  split.
  { apply two_digit_day; try assumption.
    apply andb_true_iff. rewrite !Z.leb_le. lia. }
  auto.
Qed.

(** *** Zero-padded texts *)

Lemma digit_char d :
  0 <= d <= 9 ->
  digit_value (N_of_ascii (ascii_of_nat (Z.to_nat (48 + d)))) = Some d.
Proof.
  intros H.
  assert (d = 0 \/ d = 1 \/ d = 2 \/ d = 3 \/ d = 4 \/ d = 5 \/ d = 6
          \/ d = 7 \/ d = 8 \/ d = 9) as C by lia.
  repeat (destruct C as [-> | C]; [reflexivity|]).
  subst. reflexivity.
Qed.

Lemma digit_char_ascii d :
  0 <= d <= 9 ->
  (N_of_ascii (ascii_of_nat (Z.to_nat (48 + d))) <? 128)%N = true.
Proof.
  intros H.
  assert (d = 0 \/ d = 1 \/ d = 2 \/ d = 3 \/ d = 4 \/ d = 5 \/ d = 6
          \/ d = 7 \/ d = 8 \/ d = 9) as C by lia.
  repeat (destruct C as [-> | C]; [reflexivity|]).
  subst. reflexivity.
Qed.

Lemma two_digits_ascii n : is_ascii (two_digits n) = true.
Proof.
  unfold is_ascii, two_digits. cbn [list_ascii_of_string forallb].
  rewrite !digit_char_ascii by (Z.to_euclidean_division_equations; lia).
  reflexivity.
Qed.

Lemma two_digits_month m :
  1 <= m <= 12 ->
  In (codes (two_digits m)) months_text /\ int (codes (two_digits m)) = m.
Proof.
  intros H. apply in_months in H. unfold months in H. cbn [In] in H.
  repeat (destruct H as [<- | H]; [split; [solve [in_list] | reflexivity]|]).
  contradiction.
Qed.

Lemma two_digits_day d :
  1 <= d <= 31 ->
  day_text (codes (two_digits d)) /\ int (codes (two_digits d)) = d.
Proof.
  intros H. assert (In d (range2 1 32)) as R by (apply in_range2; lia).
  vm_compute in R.
  repeat (destruct R as [<- | R]; [split; [day_text_case | reflexivity]|]).
  contradiction.
Qed.

Lemma four_digits_year y :
  0 <= y <= 9999 ->
  year_text (codes (two_digits (y / 100) ++ two_digits y))
  /\ int (codes (two_digits (y / 100) ++ two_digits y)) = y.
Proof.
  intros H. unfold two_digits. cbn [String.append].
  set (d1 := y / 100 / 10 mod 10). set (d2 := (y / 100) mod 10).
  set (d3 := y / 10 mod 10). set (d4 := y mod 10).
  assert (0 <= d1 <= 9 /\ 0 <= d2 <= 9 /\ 0 <= d3 <= 9 /\ 0 <= d4 <= 9
          /\ ((d1 * 10 + d2) * 10 + d3) * 10 + d4 = y)
    as (H1 & H2 & H3 & H4 & Hy)
    by (unfold d1, d2, d3, d4; Z.to_euclidean_division_equations; lia).
  clearbody d1 d2 d3 d4.
  pose proof (digit_char d1 H1) as A1. pose proof (digit_char d2 H2) as A2.
  pose proof (digit_char d3 H3) as A3. pose proof (digit_char d4 H4) as A4.
  unfold codes. cbn [list_ascii_of_string map]. split.
  - do 4 eexists. split; [reflexivity|].
    unfold Strptime.is_decimal. rewrite A1, A2, A3, A4. auto.
  - unfold Strptime.int. cbn [Strptime.int_acc].
    rewrite A1, A2, A3, A4. lia.
Qed.

Lemma strptime_of_iso_text date :
  valid date = true -> strptime_Ymd (iso_text date) = Some date.
Proof.
  intros V. pose proof V as V'. apply valid_spec in V'.
  destruct V' as (Hy & Hm & Hd).
  pose proof (days_in_month_le_31 (year date) (month date) Hm) as H31.
  destruct (four_digits_year (year date)) as [YT YI]; [lia|].
  destruct (two_digits_month (month date) Hm) as [MT MI].
  destruct (two_digits_day (day date)) as [DT DI]; [lia|].
  apply strptime_spec.
  exists (codes (two_digits (year date / 100) ++ two_digits (year date))),
    (codes (two_digits (month date))), (codes (two_digits (day date))).
  split.
  { unfold iso_text. rewrite decode_ascii.
    - rewrite <- !codes_app, string_app_assoc. reflexivity.
    - rewrite !is_ascii_app, !two_digits_ascii. reflexivity. }
  rewrite YI, MI, DI. destruct date; auto 10.
Qed.

End StrptimeFacts.

(** ** The cache *)

Section CacheFacts.

Variables K V : Type.
Variable key_eqb : K -> K -> bool.
Hypothesis key_eqb_eq : forall a b, key_eqb a b = true <-> a = b.
Variable f : K -> result V.

Abbreviation lookup := (LruCache.lookup K V key_eqb).
Abbreviation remove := (LruCache.remove K V key_eqb).
Abbreviation call := (LruCache.call K V key_eqb).
Abbreviation sound := (LruCache.sound K V key_eqb f).

Lemma key_eqb_refl k : key_eqb k k = true.
Proof using Type key_eqb_eq. apply key_eqb_eq. reflexivity. Qed.

Lemma lookup_remove_same k c : lookup k (remove k c) = None.
Proof.
  induction c as [| [k0 v0] c IH]; simpl; [reflexivity|].
  destruct (key_eqb k k0) eqn:E; [exact IH|].
  simpl. rewrite E. exact IH.
Qed.

Lemma lookup_remove k k' c v :
  lookup k' (remove k c) = Some v -> lookup k' c = Some v.
Proof using Type key_eqb_eq.
  induction c as [| [k0 v0] c IH]; simpl; [trivial|].
  destruct (key_eqb k k0) eqn:E0; simpl.
  - intros H. destruct (key_eqb k' k0) eqn:E1; [|auto].
    apply key_eqb_eq in E0, E1. subst.
    rewrite lookup_remove_same in H. discriminate.
  - destruct (key_eqb k' k0); auto.
Qed.

Lemma lookup_removelast k c v :
  lookup k (removelast c) = Some v -> lookup k c = Some v.
Proof.
  induction c as [| [k0 v0] c IH]; simpl; [trivial|].
  destruct c as [| e c']; [discriminate|].
  simpl in *. destruct (key_eqb k k0); auto.
Qed.

Lemma sound_nil : sound [].
Proof. intros k v H. discriminate. Qed.

(** A call through the cache returns what the function itself returns. *)
Lemma call_value maxsize k c :
  sound c -> fst (call maxsize f k c) = f k.
Proof.
  intros S. unfold LruCache.call.
  destruct (lookup k c) as [v|] eqn:L.
  - simpl. symmetry. apply S. exact L.
  - destruct (f k); reflexivity.
Qed.

(** ... and leaves the cache sound. *)
Lemma call_sound maxsize k c :
  sound c -> sound (snd (call maxsize f k c)).
Proof using Type key_eqb_eq.
  intros S. unfold LruCache.call.
  destruct (lookup k c) as [v|] eqn:L; simpl.
  - intros k' v'. simpl. destruct (key_eqb k' k) eqn:E.
    + apply key_eqb_eq in E. subst. intros H. inversion H; subst. auto.
    + intros H. apply lookup_remove in H. auto.
  - destruct (f k) as [v|e] eqn:F; simpl; [|exact S].
    intros k' v'. simpl. destruct (key_eqb k' k) eqn:E.
    + apply key_eqb_eq in E. subst. intros H. inversion H; subst. exact F.
    + destruct (List.length c <? maxsize)%nat; intros H; [auto|].
      apply lookup_removelast in H. auto.
Qed.

(** The key of a call that returned is in the cache afterwards, with the
    value returned. *)
Lemma call_stores maxsize k c v :
  fst (call maxsize f k c) = Return v ->
  lookup k (snd (call maxsize f k c)) = Some v.
Proof using Type key_eqb_eq.
  unfold LruCache.call. destruct (lookup k c) as [v0|] eqn:L; simpl.
  - intros H. inversion H; subst. rewrite key_eqb_refl. reflexivity.
  - destruct (f k) as [v0|e]; simpl; intros H; inversion H; subst.
    rewrite key_eqb_refl. reflexivity.
Qed.

(** The cache never holds more than [maxsize] entries. *)
Lemma length_remove k c : (List.length (remove k c) <= List.length c)%nat.
Proof.
  induction c as [| [k0 v0] c IH]; simpl; [lia|].
  destruct (key_eqb k k0); simpl; lia.
Qed.

Lemma lookup_some_remove k c v :
  lookup k c = Some v -> (List.length (remove k c) < List.length c)%nat.
Proof.
  induction c as [| [k0 v0] c IH]; simpl; [discriminate|].
  destruct (key_eqb k k0) eqn:E.
  - intros _. pose proof (length_remove k c). lia.
  - intros H. apply IH in H. simpl. lia.
Qed.

Lemma call_bounded maxsize k c :
  (0 < maxsize)%nat -> (List.length c <= maxsize)%nat ->
  (List.length (snd (call maxsize f k c)) <= maxsize)%nat.
Proof.
  intros Hpos Hc. unfold LruCache.call.
  destruct (lookup k c) as [v|] eqn:L; simpl.
  - apply lookup_some_remove in L. lia.
  - destruct (f k) as [v|e]; simpl; [|exact Hc].
    destruct (Nat.ltb_spec (List.length c) maxsize); [lia|].
    rewrite removelast_firstn_len, length_firstn. lia.
Qed.

End CacheFacts.

(** ** The service *)

(** *** Comparisons of dates *)

Lemma eqb_eq a b : Calendar.eqb a b = true <-> a = b.
Proof.
  unfold Calendar.eqb. split.
  - destruct (compare a b) eqn:C; try discriminate.
    intros _. apply compare_eq. exact C.
  - intros ->. unfold compare. rewrite !Z.compare_refl. reflexivity.
Qed.

Lemma ltb_toordinal a b :
  valid a = true -> valid b = true ->
  (ltb a b = true <-> toordinal a < toordinal b).
Proof.
  intros Va Vb. unfold ltb. rewrite compare_toordinal by assumption.
  destruct (Z.compare_spec (toordinal a) (toordinal b)); split;
    intros; (reflexivity || discriminate || lia).
Qed.

Lemma leb_toordinal a b :
  valid a = true -> valid b = true ->
  (leb a b = true <-> toordinal a <= toordinal b).
Proof.
  intros Va Vb. unfold leb, gtb. rewrite compare_toordinal by assumption.
  destruct (Z.compare_spec (toordinal a) (toordinal b)); simpl; split;
    intros; (reflexivity || discriminate || lia).
Qed.

Lemma gtb_leb a b : gtb a b = false <-> leb a b = true.
Proof. unfold leb. destruct (gtb a b); simpl; split; congruence. Qed.

(** *** Adding days *)

Lemma add_days_ok start x :
  0 < toordinal start + x <= _MAXORDINAL ->
  add_days start x = Return (day_at start x).
Proof.
  intros H. unfold add_days, day_at.
  destruct (Z.ltb_spec 0 (toordinal start + x)); [|lia].
  destruct (Z.leb_spec (toordinal start + x) _MAXORDINAL); [|lia].
  reflexivity.
Qed.

Lemma day_at_valid start x :
  0 < toordinal start + x <= _MAXORDINAL -> valid (day_at start x) = true.
Proof. intros H. apply fromordinal_valid. lia. Qed.

Lemma toordinal_day_at start x :
  0 < toordinal start + x -> toordinal (day_at start x) = toordinal start + x.
Proof. intros H. apply toordinal_fromordinal. lia. Qed.

(** The offsets of a validated range stay inside the calendar. *)
Lemma range_in_calendar start end_ x :
  valid start = true -> valid end_ = true ->
  In x (range (sub_days end_ start + 1)) ->
  0 <= x /\ 0 < toordinal start + x <= toordinal end_
  /\ toordinal end_ <= _MAXORDINAL.
Proof.
  intros Vs Ve Hx. apply in_range in Hx. unfold sub_days in Hx.
  pose proof (toordinal_range start Vs). pose proof (toordinal_range end_ Ve).
  lia.
Qed.

Section ServiceFacts.

Variable unicode_decimal : N -> option Z.
Variable Australia : list Z -> option string -> datetime -> bool.

Lemma working_days_of_ok start state xs :
  in_calendar start xs ->
  working_days_of Australia start state xs
  = Return (working_among Australia start state xs).
Proof.
  unfold working_among.
  induction xs as [| x xs IH]; intros Hin; [reflexivity|].
  assert (in_calendar start xs) as Hxs
    by (intros y Hy; apply Hin; right; exact Hy).
  cbn [working_days_of map filter].
  rewrite add_days_ok by (apply Hin; left; reflexivity).
  cbn [bind]. rewrite (IH Hxs).
  destruct (is_working_day Australia (day_at start x) state); reflexivity.
Qed.

Lemma sum_working_days_ok start state xs : forall acc,
  in_calendar start xs ->
  sum_working_days Australia start state xs acc
  = Return (acc
            + Z.of_nat (List.length (working_among Australia start state xs))).
Proof.
  unfold working_among.
  induction xs as [| x xs IH]; intros acc Hin;
    cbn [sum_working_days map filter].
  - cbn [List.length]. f_equal. lia.
  - assert (in_calendar start xs) as Hxs
      by (intros y Hy; apply Hin; right; exact Hy).
    rewrite add_days_ok by (apply Hin; left; reflexivity).
    cbn [bind]. rewrite (IH _ Hxs).
    destruct (is_working_day Australia (day_at start x) state);
      cbn [List.length]; f_equal; lia.
Qed.

Lemma validated_in_calendar start end_ :
  valid start = true -> valid end_ = true ->
  in_calendar start (range (sub_days end_ start + 1)).
Proof.
  intros Vs Ve x Hx.
  destruct (range_in_calendar start end_ x Vs Ve Hx) as (_ & H1 & H2). lia.
Qed.

Lemma working_days_list_ok start end_ state :
  valid start = true -> valid end_ = true ->
  working_days_list Australia start end_ state
  = Return (working_among Australia start state
              (range (sub_days end_ start + 1))).
Proof.
  intros Vs Ve. apply working_days_of_ok, validated_in_calendar; assumption.
Qed.

Lemma count_working_days_body_ok start end_ state :
  valid start = true -> valid end_ = true ->
  count_working_days_body Australia (start, end_, state)
  = Return (Z.of_nat (List.length
      (working_among Australia start state (range (sub_days end_ start + 1))))).
Proof.
  intros Vs Ve. unfold count_working_days_body.
  rewrite sum_working_days_ok by (apply validated_in_calendar; assumption).
  reflexivity.
Qed.

(** *** The cache of [count_working_days] *)

Lemma state_eqb_eq a b : state_eqb a b = true <-> a = b.
Proof.
  destruct a as [x|], b as [y|]; simpl; split; try congruence.
  - intros H. apply String.eqb_eq in H. congruence.
  - intros H. inversion H. apply String.eqb_refl.
Qed.

Lemma key_eqb_eq a b : key_eqb a b = true <-> a = b.
Proof.
  destruct a as [[s1 e1] st1], b as [[s2 e2] st2]. unfold key_eqb.
  rewrite !andb_true_iff, !eqb_eq, state_eqb_eq. split.
  - intros [[-> ->] ->]. reflexivity.
  - intros H. inversion H. auto.
Qed.

Lemma coherent_nil : coherent Australia [].
Proof. intros k v H. discriminate. Qed.

Lemma count_working_days_value start end_ state c :
  coherent Australia c ->
  fst (count_working_days Australia start end_ state c)
  = count_working_days_body Australia (start, end_, state).
Proof. intros S. apply (call_value _ _ key_eqb). exact S. Qed.

Lemma count_working_days_coherent start end_ state c :
  coherent Australia c ->
  coherent Australia (snd (count_working_days Australia start end_ state c)).
Proof. intros S. apply (call_sound _ _ key_eqb key_eqb_eq). exact S. Qed.

(** The endpoint keeps the cache coherent, and within its 1000 entries. *)
Lemma get_working_days_coherent start_date end_date state c :
  coherent Australia c ->
  coherent Australia
    (snd (get_working_days unicode_decimal Australia start_date end_date state
        c)).
Proof.
  intros S. unfold get_working_days.
  destruct (parse_date unicode_decimal start_date) as [start|]; [|exact S].
  destruct (parse_date unicode_decimal end_date) as [end_|]; [|exact S].
  destruct (gtb start end_); [exact S|].
  destruct (unknown_state state); [exact S|].
  apply count_working_days_coherent. exact S.
Qed.

Lemma get_working_days_bounded start_date end_date state c :
  (List.length c <= 1000)%nat ->
  (List.length (snd (get_working_days unicode_decimal Australia start_date
      end_date state c))
   <= 1000)%nat.
Proof.
  intros B. unfold get_working_days.
  destruct (parse_date unicode_decimal start_date) as [start|]; [|exact B].
  destruct (parse_date unicode_decimal end_date) as [end_|]; [|exact B].
  destruct (gtb start end_); [exact B|].
  destruct (unknown_state state); [exact B|].
  apply call_bounded; [lia | exact B].
Qed.

End ServiceFacts.

(** *** Sorted lists *)

Lemma sorted_range2 lo hi : StronglySorted Z.lt (range2 lo hi).
Proof.
  unfold range2. generalize (Z.to_nat (hi - lo)) as n. intros n.
  generalize 0%nat as k. induction n as [| n IH]; intros k; simpl.
  - constructor.
  - constructor; [apply IH|].
    apply Forall_forall. intros y Hy. apply in_map_iff in Hy.
    destruct Hy as (j & <- & Hj). apply in_seq in Hj. lia.
Qed.

Lemma sorted_map_in {A B} (R : A -> A -> Prop) (R' : B -> B -> Prop)
    (f : A -> B) (l : list A) :
  (forall x y, In x l -> In y l -> R x y -> R' (f x) (f y)) ->
  StronglySorted R l -> StronglySorted R' (map f l).
Proof.
  intros Hf S. induction S as [| a l S IH Ha]; simpl; constructor.
  - apply IH. intros x y Hx Hy. apply Hf; right; assumption.
  - apply Forall_forall. intros y Hy. apply in_map_iff in Hy.
    destruct Hy as (x & <- & Hx). rewrite Forall_forall in Ha.
    apply Hf; [left; reflexivity | right; exact Hx | apply Ha; exact Hx].
Qed.

Lemma sorted_filter {A} (R : A -> A -> Prop) (p : A -> bool) (l : list A) :
  StronglySorted R l -> StronglySorted R (filter p l).
Proof.
  intros S. induction S as [| a l S IH Ha]; simpl; [constructor|].
  destruct (p a); [|exact IH]. constructor; [exact IH|].
  rewrite Forall_forall in *. intros y Hy. apply filter_In in Hy.
  apply Ha. tauto.
Qed.

Lemma sorted_NoDup {A} (R : A -> A -> Prop) (l : list A) :
  (forall x, ~ R x x) -> StronglySorted R l -> NoDup l.
Proof.
  intros Irr S. induction S as [| a l S IH Ha]; constructor; [|exact IH].
  intros Hin. rewrite Forall_forall in Ha. exact (Irr a (Ha a Hin)).
Qed.

Lemma date_lt_irrefl d : ~ date_lt d d.
Proof.
  unfold date_lt, ltb, compare. rewrite !Z.compare_refl. discriminate.
Qed.

Lemma map_seq_from {B} : forall b (f : nat -> B) a,
  map f (seq a b) = map (fun j => f (a + j)%nat) (seq 0 b).
Proof.
  induction b as [| b IH]; intros f a; simpl; [reflexivity|].
  rewrite Nat.add_0_r. f_equal.
  rewrite (IH f (S a)), (IH (fun j => f (a + j)%nat) 1%nat).
  apply map_ext. intros j. f_equal. lia.
Qed.

Lemma range_app k k' :
  0 <= k <= k' -> range k' = range k ++ range2 k k'.
Proof.
  intros H. unfold range, range2.
  replace (Z.to_nat (k' - 0)) with (Z.to_nat (k - 0) + Z.to_nat (k' - k))%nat
    by lia.
  rewrite seq_app, map_app. f_equal.
  rewrite map_seq_from. apply map_ext. intros j. lia.
Qed.

Lemma parse_date_valid unicode_decimal text date :
  parse_date unicode_decimal text = Return date -> valid date = true.
Proof.
  unfold parse_date. destruct (strptime_Ymd unicode_decimal text) as [d|] eqn:E;
    [|discriminate].
  intros H. inversion H; subst. apply strptime_spec in E.
  destruct E as (Y & m & d & _ & _ & _ & _ & _ & V). exact V.
Qed.

Lemma weekday_isoweekday date :
  weekday date < 5 <-> 1 <= isoweekday date <= 5.
Proof.
  unfold weekday, isoweekday.
  destruct (Z.eqb_spec (toordinal date mod 7) 0);
    Z.to_euclidean_division_equations; lia.
Qed.

(** The dates offered to the predicate are valid, ascending and inside the
    range. *)
Lemma days_of_range_sorted start end_ :
  valid start = true -> valid end_ = true ->
  StronglySorted date_lt
    (map (day_at start) (range (sub_days end_ start + 1))).
Proof.
  intros Vs Ve. apply (sorted_map_in Z.lt); [|apply sorted_range2].
  intros x y Hx Hy Hlt.
  destruct (range_in_calendar start end_ x Vs Ve Hx) as (_ & Hx1 & Hx2).
  destruct (range_in_calendar start end_ y Vs Ve Hy) as (_ & Hy1 & Hy2).
  unfold date_lt. apply ltb_toordinal.
  - apply day_at_valid. lia.
  - apply day_at_valid. lia.
  - rewrite !toordinal_day_at by lia. lia.
Qed.

Lemma days_of_range_bounds start end_ date :
  valid start = true -> valid end_ = true ->
  In date (map (day_at start) (range (sub_days end_ start + 1))) ->
  leb start date = true /\ leb date end_ = true.
Proof.
  intros Vs Ve Hd. apply in_map_iff in Hd. destruct Hd as (x & <- & Hx).
  destruct (range_in_calendar start end_ x Vs Ve Hx) as (H0 & H1 & H2).
  assert (valid (day_at start x) = true) as Vd by (apply day_at_valid; lia).
  split; apply leb_toordinal; try assumption;
    rewrite toordinal_day_at by lia; lia.
Qed.

Lemma unknown_state_spec s :
  s <> "" -> ~ In s AUSTRALIAN_STATES -> unknown_state (Some s) = true.
Proof.
  intros Hne Hnot. unfold unknown_state.
  apply andb_true_iff. split; apply negb_true_iff.
  - apply String.eqb_neq. exact Hne.
  - apply not_true_is_false. intros H. apply existsb_exists in H.
    destruct H as (x & Hx & E). apply String.eqb_eq in E. subst. auto.
Qed.

(** C7, amended: [parse_date] returns a date exactly for the texts that
    read as one ([date_text]): four decimal digits of any script, a hyphen,
    a month of one or two ASCII digits, a hyphen, a day of one or two
    digits (ASCII, but for the second digit of 10 to 29, which may be of
    any script; a blank may stand for the leading zero), naming a date of
    the calendar; every other text is refused with status 400 and the
    message of the date format. Texts of the strict pattern that name a
    date are among those accepted. *)
Theorem parse_date_spec unicode_decimal text :
  (forall date,
     parse_date unicode_decimal text = Return date
     <-> date_text unicode_decimal text date)
  /\ (parse_date unicode_decimal text
      = Raise (HTTPException 400 "Invalid date format. Use YYYY-MM-DD")
      <-> ~ exists date, date_text unicode_decimal text date)
  /\ (strict_YYYY_MM_DD text = true ->
      valid (fields_of unicode_decimal text) = true ->
      parse_date unicode_decimal text
      = Return (fields_of unicode_decimal text)).
Proof.
  assert (forall date, parse_date unicode_decimal text = Return date <->
      date_text unicode_decimal text date)
    as Hret.
  { intros date. rewrite <- strptime_spec. unfold parse_date.
    destruct (strptime_Ymd unicode_decimal text); split; intros H; inversion H;
        reflexivity. }
  split; [exact Hret|]. split.
  - split.
    + intros H (date & Hd). apply Hret in Hd. congruence.
    + intros Hno. unfold parse_date.
      destruct (strptime_Ymd unicode_decimal text) as [d|] eqn:E;
          [|reflexivity].
      exfalso. apply Hno. exists d. apply strptime_spec. exact E.
  - intros S V. apply Hret. apply strict_date_text; assumption.
Qed.

Section Claims.

Variable unicode_decimal : N -> option Z.
Variable Australia : list Z -> option string -> datetime -> bool.

(** C1: the count returned by [count_working_days] is the length of the
    list built by the list endpoint, and both are the dates of the
    inclusive range that satisfy [is_working_day]. *)
Theorem count_is_length_of_list start end_ state c :
  valid start = true -> valid end_ = true -> leb start end_ = true ->
  coherent Australia c ->
  exists working_days,
    working_days_list Australia start end_ state = Return working_days
    /\ fst (count_working_days Australia start end_ state c)
       = Return (Z.of_nat (List.length working_days))
    /\ working_days
       = filter (fun date => is_working_day Australia date state)
           (map (day_at start) (range (sub_days end_ start + 1))).
Proof.
  intros Vs Ve _ Hc.
  exists (working_among Australia start state
            (range (sub_days end_ start + 1))).
  split; [apply working_days_list_ok; assumption|].
  split; [|reflexivity].
  rewrite count_working_days_value by exact Hc.
  apply count_working_days_body_ok; assumption.
Qed.


(** C4, amended: without a jurisdiction the weekday rule applies together
    with the holiday set the calendar gives when no province is named;
    the weekday rule stands alone only when that set is empty. *)
Theorem is_working_day_without_state date :
  (is_working_day Australia date None = true
   <-> 1 <= isoweekday date <= 5
       /\ Australia (range2 2000 2050) None date = false)
  /\ ((forall d, Australia (range2 2000 2050) None d = false) ->
      (is_working_day Australia date None = true
       <-> 1 <= isoweekday date <= 5)).
Proof.
  unfold is_working_day, get_holidays.
  rewrite andb_true_iff, negb_true_iff, Z.ltb_lt, weekday_isoweekday.
  split; [reflexivity|]. intros Hnone. rewrite Hnone. tauto.
Qed.

(** The body of the count and the list comprehension raise nothing but
    the overflow of the date arithmetic. *)
Lemma sum_working_days_raises start state xs : forall acc e,
  sum_working_days Australia start state xs acc = Raise e ->
  e = OverflowError.
Proof.
  induction xs as [| x xs IH]; intros acc e; cbn [sum_working_days].
  - discriminate.
  - unfold add_days.
    destruct ((0 <? toordinal start + x)
              && (toordinal start + x <=? _MAXORDINAL)); cbn [bind].
    + apply IH.
    + intros H. inversion H. reflexivity.
Qed.

Lemma working_days_of_raises start state xs : forall e,
  working_days_of Australia start state xs = Raise e -> e = OverflowError.
Proof.
  induction xs as [| x xs IH]; intros e; cbn [working_days_of].
  - discriminate.
  - unfold add_days.
    destruct ((0 <? toordinal start + x)
              && (toordinal start + x <=? _MAXORDINAL)); cbn [bind].
    + destruct (is_working_day Australia _ state); cbn [bind]; [|apply IH].
      destruct (working_days_of Australia start state xs) as [l|e'];
        cbn [bind]; [discriminate|].
      intros H. inversion H; subst. apply IH. reflexivity.
    + intros H. inversion H. reflexivity.
Qed.

Lemma count_working_days_raises start end_ state c e :
  fst (count_working_days Australia start end_ state c) = Raise e ->
  e = OverflowError.
Proof.
  unfold count_working_days, LruCache.call.
  destruct (LruCache.lookup _ _ _ _ c); [discriminate|].
  destruct (count_working_days_body Australia (start, end_, state))
    as [v|e'] eqn:B; [discriminate|].
  intros H. inversion H; subst.
  apply (sum_working_days_raises _ _ _ _ _ B).
Qed.

(** A repeated call returns what the first call returned. *)
Lemma count_working_days_again start end_ state c :
  coherent Australia c ->
  fst (count_working_days Australia start end_ state
         (snd (count_working_days Australia start end_ state c)))
  = fst (count_working_days Australia start end_ state c).
Proof.
  intros Hc. rewrite !count_working_days_value; [reflexivity | exact Hc |].
  apply count_working_days_coherent. exact Hc.
Qed.

(** C8: the list of a validated range is strictly ascending, has no
    duplicates, and lies within the range. *)
Theorem working_days_list_ascending start end_ state :
  valid start = true -> valid end_ = true -> leb start end_ = true ->
  exists working_days,
    working_days_list Australia start end_ state = Return working_days
    /\ StronglySorted date_lt working_days
    /\ NoDup working_days
    /\ Forall (fun date => leb start date = true /\ leb date end_ = true)
         working_days.
Proof.
  intros Vs Ve _.
  exists (working_among Australia start state
            (range (sub_days end_ start + 1))).
  assert (StronglySorted date_lt
            (working_among Australia start state
               (range (sub_days end_ start + 1)))) as Sorted
    by (apply sorted_filter, days_of_range_sorted; assumption).
  split; [apply working_days_list_ok; assumption|].
  split; [exact Sorted|].
  split; [exact (sorted_NoDup _ _ date_lt_irrefl Sorted)|].
  apply Forall_forall. intros date Hd. apply filter_In in Hd.
  apply (days_of_range_bounds start end_); tauto.
Qed.

(** C9: a later end never lowers the count. *)
Theorem count_monotone start end_ end' state c c' :
  valid start = true -> valid end_ = true -> valid end' = true ->
  leb start end_ = true -> ltb end_ end' = true ->
  coherent Australia c -> coherent Australia c' ->
  exists n n',
    fst (count_working_days Australia start end_ state c) = Return n
    /\ fst (count_working_days Australia start end' state c') = Return n'
    /\ n <= n'.
Proof.
  intros Vs Ve Ve' L Lt Hc Hc'.
  apply leb_toordinal in L; [|assumption..].
  apply ltb_toordinal in Lt; [|assumption..].
  rewrite !count_working_days_value by assumption.
  rewrite !count_working_days_body_ok by assumption.
  eexists. eexists. split; [reflexivity|]. split; [reflexivity|].
  unfold working_among, sub_days.
  rewrite (range_app (toordinal end_ - toordinal start + 1)
                     (toordinal end' - toordinal start + 1)) by lia.
  rewrite map_app, filter_app, length_app. lia.
Qed.

Section Endpoints.

Variable strftime_Ymd : datetime -> string.

(** C5: parsed dates with the start after the end are refused by both
    endpoints with status 400 and the message of the inverted range,
    before anything is computed (the cache is as it was); dates in order
    never meet this error. *)
Theorem inverted_range_rejected start_date end_date state c start end_ :
  parse_date unicode_decimal start_date = Return start ->
  parse_date unicode_decimal end_date = Return end_ ->
  (gtb start end_ = true ->
     get_working_days unicode_decimal Australia start_date end_date state c
     = (Raise (HTTPException 400
                 "Start date must be before or equal to end date"), c)
     /\ get_working_days_list unicode_decimal Australia strftime_Ymd start_date
         end_date state
        = Raise (HTTPException 400
                   "Start date must be before or equal to end date"))
  /\ (gtb start end_ = false ->
     fst (get_working_days unicode_decimal Australia start_date end_date state
         c)
     <> Raise (HTTPException 400
                 "Start date must be before or equal to end date")
     /\ get_working_days_list unicode_decimal Australia strftime_Ymd start_date
         end_date state
        <> Raise (HTTPException 400
                    "Start date must be before or equal to end date")).
Proof.
  intros Ps Pe. unfold get_working_days, get_working_days_list.
  rewrite Ps, Pe. cbn [bind]. split; intros G; rewrite G.
  - split; reflexivity.
  - destruct (unknown_state state).
    + split; cbn [fst]; intros H; inversion H.
    + split.
      * intros H. apply count_working_days_raises in H. discriminate.
      * destruct (working_days_list Australia start end_ state) as [l|e] eqn:L;
          cbn [bind]; [discriminate|].
        apply working_days_of_raises in L. subst. discriminate.
Qed.

(** What both endpoints do with a request that passes the validations. *)
Lemma validated_request start_date end_date state c start end_ :
  parse_date unicode_decimal start_date = Return start ->
  parse_date unicode_decimal end_date = Return end_ ->
  gtb start end_ = false -> unknown_state state = false ->
  get_working_days unicode_decimal Australia start_date end_date state c
  = count_working_days Australia start end_ state c
  /\ get_working_days_list unicode_decimal Australia strftime_Ymd start_date
      end_date state
     = (working_days <- working_days_list Australia start end_ state ;;
        Return (map strftime_Ymd working_days)).
Proof.
  intros Ps Pe G U. unfold get_working_days, get_working_days_list.
  rewrite Ps, Pe. cbn [bind]. rewrite G, U. split; reflexivity.
Qed.

Lemma validated_request_served start_date end_date state c start end_ :
  parse_date unicode_decimal start_date = Return start ->
  parse_date unicode_decimal end_date = Return end_ ->
  gtb start end_ = false -> unknown_state state = false ->
  coherent Australia c ->
  let working_days :=
    filter (fun date =>
              (weekday date <? 5)
              && negb (Australia (range2 2000 2050) state date))
      (map (day_at start) (range (sub_days end_ start + 1))) in
  fst (get_working_days unicode_decimal Australia start_date end_date state c)
  = Return (Z.of_nat (List.length working_days))
  /\ get_working_days_list unicode_decimal Australia strftime_Ymd start_date
      end_date state
     = Return (map strftime_Ymd working_days).
Proof.
  intros Ps Pe G U Hc working_days.
  pose proof (parse_date_valid _ _ _ Ps) as Vs.
  pose proof (parse_date_valid _ _ _ Pe) as Ve.
  destruct (validated_request _ _ _ c _ _ Ps Pe G U) as [-> ->].
  rewrite count_working_days_value by exact Hc.
  rewrite count_working_days_body_ok, working_days_list_ok by assumption.
  split; reflexivity.
Qed.

(** X7: the two endpoints agree on every request: the same error, or a
    count that is the length of the list. *)
Lemma endpoints_agree start_date end_date state c :
  coherent Australia c ->
  match get_working_days_list unicode_decimal Australia strftime_Ymd start_date
      end_date state
  with
  | Return days =>
      fst (get_working_days unicode_decimal Australia start_date end_date state
          c)
      = Return (Z.of_nat (List.length days))
  | Raise e =>
      fst (get_working_days unicode_decimal Australia start_date end_date state
          c) = Raise e
  end.
Proof.
  intros Hc. unfold get_working_days, get_working_days_list.
  destruct (parse_date unicode_decimal start_date) as [start|] eqn:Ps;
      [|reflexivity].
  destruct (parse_date unicode_decimal end_date) as [end_|] eqn:Pe;
      [|reflexivity].
  cbn [bind]. destruct (gtb start end_); [reflexivity|].
  destruct (unknown_state state); [reflexivity|].
  pose proof (parse_date_valid _ _ _ Ps) as Vs.
  pose proof (parse_date_valid _ _ _ Pe) as Ve.
  rewrite count_working_days_value by exact Hc.
  rewrite count_working_days_body_ok, working_days_list_ok by assumption.
  cbn [bind]. rewrite length_map. reflexivity.
Qed.

(** C3, amended: a request that passes the three validations is served
    whatever the years of its dates, inside 2000 to 2049 or not: both
    endpoints answer with the working days found against the holiday set
    built for the years 2000 to 2049, and no error is raised. *)
Theorem any_year_is_served start_date end_date state c start end_ :
  parse_date unicode_decimal start_date = Return start ->
  parse_date unicode_decimal end_date = Return end_ ->
  leb start end_ = true -> unknown_state state = false ->
  coherent Australia c ->
  let working_days :=
    filter (fun date =>
              (weekday date <? 5)
              && negb (Australia (range2 2000 2050) state date))
      (map (day_at start) (range (sub_days end_ start + 1))) in
  fst (get_working_days unicode_decimal Australia start_date end_date state c)
  = Return (Z.of_nat (List.length working_days))
  /\ get_working_days_list unicode_decimal Australia strftime_Ymd start_date
      end_date state
     = Return (map strftime_Ymd working_days).
Proof.
  intros Ps Pe L U Hc. apply gtb_leb in L.
  apply validated_request_served; assumption.
Qed.

(** C6, amended: a jurisdiction text that is not empty and not one of the
    8 codes is refused by both endpoints with status 400, and once the
    dates are validated the message is the one that lists the 8 codes; an
    absent jurisdiction is passed on as [None]; an empty one is passed on
    as the empty text itself. *)
Theorem unknown_state_rejected start_date end_date c :
  (forall s, s <> "" -> ~ In s AUSTRALIAN_STATES ->
     (exists detail,
        get_working_days unicode_decimal Australia start_date end_date (Some s)
            c
        = (Raise (HTTPException 400 detail), c)
        /\ get_working_days_list unicode_decimal Australia strftime_Ymd
            start_date end_date
             (Some s)
           = Raise (HTTPException 400 detail))
     /\ forall start end_,
          parse_date unicode_decimal start_date = Return start ->
          parse_date unicode_decimal end_date = Return end_ ->
          gtb start end_ = false ->
          get_working_days unicode_decimal Australia start_date end_date (Some
              s) c
          = (Raise (HTTPException 400
               "Invalid state. Must be one of ACT, NSW, NT, QLD, SA, TAS, VIC, WA"),
             c)
          /\ get_working_days_list unicode_decimal Australia strftime_Ymd
              start_date end_date
               (Some s)
             = Raise (HTTPException 400
                 "Invalid state. Must be one of ACT, NSW, NT, QLD, SA, TAS, VIC, WA"))
  /\ forall start end_,
       parse_date unicode_decimal start_date = Return start ->
       parse_date unicode_decimal end_date = Return end_ ->
       gtb start end_ = false ->
       (get_working_days unicode_decimal Australia start_date end_date None c
        = count_working_days Australia start end_ None c
        /\ get_working_days_list unicode_decimal Australia strftime_Ymd
            start_date end_date
             None
           = (working_days <- working_days_list Australia start end_ None ;;
              Return (map strftime_Ymd working_days)))
       /\ (get_working_days unicode_decimal Australia start_date end_date (Some
           "") c
           = count_working_days Australia start end_ (Some "") c
           /\ get_working_days_list unicode_decimal Australia strftime_Ymd
               start_date end_date
                (Some "")
              = (working_days <-
                   working_days_list Australia start end_ (Some "") ;;
                 Return (map strftime_Ymd working_days))).
Proof.
  split.
  - intros s Hne Hnot. pose proof (unknown_state_spec s Hne Hnot) as U.
    unfold get_working_days, get_working_days_list, parse_date. split.
    + destruct (strptime_Ymd unicode_decimal start_date) as [start|];
        [|eexists; split; reflexivity].
      destruct (strptime_Ymd unicode_decimal end_date) as [end_|];
        [|eexists; split; reflexivity].
      cbn [bind]. destruct (gtb start end_); [eexists; split; reflexivity|].
      rewrite U. eexists; split; reflexivity.
    + intros start end_ Ps Pe G.
      destruct (strptime_Ymd unicode_decimal start_date); inversion Ps; subst.
      destruct (strptime_Ymd unicode_decimal end_date); inversion Pe; subst.
      cbn [bind]. rewrite G, U. split; reflexivity.
  - intros start end_ Ps Pe G. split; apply validated_request; auto.
Qed.

(** Neither endpoint answers an empty jurisdiction text with the error of
    an unknown one, whatever the dates. *)
Lemma empty_state_not_unknown start_date end_date c :
  fst (get_working_days unicode_decimal Australia start_date end_date (Some "")
      c)
  <> Raise (HTTPException 400 invalid_state_detail)
  /\ get_working_days_list unicode_decimal Australia strftime_Ymd start_date
      end_date (Some "")
     <> Raise (HTTPException 400 invalid_state_detail).
Proof.
  unfold get_working_days, get_working_days_list, parse_date.
  destruct (strptime_Ymd unicode_decimal start_date) as [start|];
    [|split; cbn [fst bind]; intros H; inversion H].
  destruct (strptime_Ymd unicode_decimal end_date) as [end_|];
    [|split; cbn [fst bind]; intros H; inversion H].
  cbn [bind]. destruct (gtb start end_);
    [split; cbn [fst]; intros H; inversion H|].
  change (unknown_state (Some "")) with false. cbv iota. split.
  - intros H. apply count_working_days_raises in H. discriminate.
  - destruct (working_days_list Australia start end_ (Some "")) as [l|e] eqn:L;
      cbn [bind]; [discriminate|].
    apply working_days_of_raises in L. subst. discriminate.
Qed.

(** C10, amended: an empty jurisdiction text is not taken for an unknown
    one. The check is skipped and its error is never raised, whatever the
    dates; when the two dates parse and the first is not after the second,
    both endpoints answer without an error, and the empty text itself is
    the jurisdiction the holiday calendar is asked for and the count is
    stored under. *)
Theorem empty_state_is_passed_on start_date end_date c :
  unknown_state (Some "") = false
  /\ fst (get_working_days unicode_decimal Australia start_date end_date (Some
      "") c)
     <> Raise (HTTPException 400 invalid_state_detail)
  /\ get_working_days_list unicode_decimal Australia strftime_Ymd start_date
      end_date (Some "")
     <> Raise (HTTPException 400 invalid_state_detail)
  /\ forall start end_,
       parse_date unicode_decimal start_date = Return start ->
       parse_date unicode_decimal end_date = Return end_ ->
       gtb start end_ = false -> coherent Australia c ->
       let working_days :=
         filter (fun date =>
                   (weekday date <? 5)
                   && negb (Australia (range2 2000 2050) (Some "") date))
           (map (day_at start) (range (sub_days end_ start + 1))) in
       get_working_days unicode_decimal Australia start_date end_date (Some "")
           c
       = count_working_days Australia start end_ (Some "") c
       /\ fst (get_working_days unicode_decimal Australia start_date end_date
           (Some "") c)
          = Return (Z.of_nat (List.length working_days))
       /\ LruCache.lookup key Z key_eqb (start, end_, Some "")
            (snd (get_working_days unicode_decimal Australia start_date end_date
                (Some "") c))
          = Some (Z.of_nat (List.length working_days))
       /\ get_working_days_list unicode_decimal Australia strftime_Ymd
           start_date end_date
            (Some "")
          = Return (map strftime_Ymd working_days).
Proof.
  destruct (empty_state_not_unknown start_date end_date c) as [N1 N2].
  split; [reflexivity|]. split; [exact N1|]. split; [exact N2|].
  intros start end_ Ps Pe G Hc working_days.
  assert (unknown_state (Some "") = false) as U by reflexivity.
  destruct (validated_request_served _ _ _ c _ _ Ps Pe G U Hc) as [Hn Hl].
  destruct (validated_request _ _ (Some "") c _ _ Ps Pe G U) as [E _].
  split; [exact E|]. split; [exact Hn|]. split; [|exact Hl].
  rewrite E in *. apply (call_stores _ _ key_eqb key_eqb_eq). exact Hn.
Qed.

End Endpoints.

End Claims.

(** ** The statements at concrete requests

    The holiday calendar is [new_year_calendar] (or [no_holidays]), dates
    are rendered by [iso_text], and the cache starts empty. *)

(** The scenarios of the specification. *)
Example first_week_of_2024_in_NSW :
  get_working_days decimal_14 new_year_calendar "2024-01-01" "2024-01-07" (Some
      "NSW") []
  = (Return 4, [((jan_1, jan_7, Some "NSW"), 4)])
  /\ get_working_days_list decimal_14 new_year_calendar iso_text
       "2024-01-01" "2024-01-07" (Some "NSW")
     = Return ["2024-01-02"; "2024-01-03"; "2024-01-04"; "2024-01-05"].
Proof. split; vm_compute; reflexivity. Qed.

Example new_year_then_the_day_after :
  fst (get_working_days decimal_14 new_year_calendar "2024-01-01" "2024-01-01"
         (Some "VIC") []) = Return 0
  /\ fst (get_working_days decimal_14 new_year_calendar "2024-01-02"
      "2024-01-02"
            (Some "VIC") []) = Return 1.
Proof. split; vm_compute; reflexivity. Qed.

Example second_call_is_a_hit :
  let c := snd (count_working_days new_year_calendar jan_1 jan_7 None []) in
  count_working_days new_year_calendar jan_1 jan_7 None c = (Return 4, c).
Proof. vm_compute. reflexivity. Qed.

Example weekdays_of_the_first_week :
  map weekday (map (day_at jan_1) (range 7)) = [0; 1; 2; 3; 4; 5; 6].
Proof. vm_compute. reflexivity. Qed.

(** C1 for the first week of 2024 in New South Wales. *)
Lemma count_is_length_of_list_witness :
  exists working_days,
    working_days_list new_year_calendar jan_1 jan_7 (Some "NSW")
    = Return working_days
    /\ fst (count_working_days new_year_calendar jan_1 jan_7 (Some "NSW") [])
       = Return (Z.of_nat (List.length working_days))
    /\ working_days
       = filter (fun date => is_working_day new_year_calendar date (Some "NSW"))
           (map (day_at jan_1) (range (sub_days jan_7 jan_1 + 1))).
Proof.
  apply (count_is_length_of_list new_year_calendar jan_1 jan_7 (Some "NSW") []);
    [reflexivity | reflexivity | reflexivity | apply coherent_nil].
Defined.

(** C3 as stated fails: a request for a week of January 1999, a year
    outside 2000 to 2049, is answered by both endpoints like any other. *)
Lemma year_1999_is_served :
  fst (get_working_days decimal_14 new_year_calendar "1999-01-04" "1999-01-08"
      None [])
  = Return 5
  /\ get_working_days_list decimal_14 new_year_calendar iso_text
       "1999-01-04" "1999-01-08" None
     = Return ["1999-01-04"; "1999-01-05"; "1999-01-06"; "1999-01-07";
               "1999-01-08"].
Proof. split; vm_compute; reflexivity. Qed.

(** C3, amended, for a week of 2051. *)
Lemma any_year_is_served_witness :
  fst (get_working_days decimal_14 new_year_calendar "2051-01-02" "2051-01-08"
      None [])
  = Return 5
  /\ get_working_days_list decimal_14 new_year_calendar iso_text
       "2051-01-02" "2051-01-08" None
     = Return ["2051-01-02"; "2051-01-03"; "2051-01-04"; "2051-01-05";
               "2051-01-06"].
Proof.
  apply (any_year_is_served decimal_14 new_year_calendar iso_text
           "2051-01-02" "2051-01-08" None []
           (mkDatetime 2051 1 2) (mkDatetime 2051 1 8));
    [reflexivity | reflexivity | reflexivity | reflexivity
    | apply coherent_nil].
Defined.



(** C4 as stated fails: Monday 1 January 2024 is a weekday and, without a
    jurisdiction, still not a working day. *)
Lemma new_year_2024_without_state :
  is_working_day new_year_calendar jan_1 None = false
  /\ isoweekday jan_1 = 1.
Proof. split; reflexivity. Qed.

(** C4, amended, with a calendar whose holiday set is empty. *)
Lemma is_working_day_without_state_witness :
  is_working_day no_holidays jan_1 None = true <-> 1 <= isoweekday jan_1 <= 5.
Proof.
  apply (proj2 (is_working_day_without_state no_holidays jan_1)).
  reflexivity.
Defined.

(** C5 for the request of the specification, 10 May to 1 May 2024. *)
Lemma inverted_range_rejected_witness :
  get_working_days decimal_14 new_year_calendar "2024-05-10" "2024-05-01" None
      []
  = (Raise (HTTPException 400
              "Start date must be before or equal to end date"), [])
  /\ get_working_days_list decimal_14 new_year_calendar iso_text
       "2024-05-10" "2024-05-01" None
     = Raise (HTTPException 400
                "Start date must be before or equal to end date").
Proof.
  apply (proj1 (inverted_range_rejected decimal_14 new_year_calendar iso_text
                  "2024-05-10" "2024-05-01" None []
                  (mkDatetime 2024 5 10) (mkDatetime 2024 5 1)
                  eq_refl eq_refl)).
  reflexivity.
Defined.

(** C6 as stated fails: with an empty jurisdiction text the count is
    computed and stored for the empty text as jurisdiction, not for [None]. *)
Lemma empty_state_reaches_the_count :
  get_working_days decimal_14 new_year_calendar "2024-01-01" "2024-01-07" (Some
      "") []
  = (Return 4, [((jan_1, jan_7, Some ""), 4)]).
Proof. vm_compute. reflexivity. Qed.

(** C6, amended, for the jurisdiction text XX. *)
Lemma unknown_state_rejected_witness :
  get_working_days decimal_14 new_year_calendar "2024-01-01" "2024-01-07" (Some
      "XX") []
  = (Raise (HTTPException 400
       "Invalid state. Must be one of ACT, NSW, NT, QLD, SA, TAS, VIC, WA"),
     [])
  /\ get_working_days_list decimal_14 new_year_calendar iso_text
       "2024-01-01" "2024-01-07" (Some "XX")
     = Raise (HTTPException 400
         "Invalid state. Must be one of ACT, NSW, NT, QLD, SA, TAS, VIC, WA").
Proof.
  refine (proj2 (proj1 (unknown_state_rejected decimal_14 new_year_calendar
      iso_text
                          "2024-01-01" "2024-01-07" []) "XX" _ _)
            jan_1 jan_7 eq_refl eq_refl eq_refl).
  - discriminate.
  - simpl. intuition discriminate.
Defined.

(** C7 as stated fails: a text with a one-digit month and day is not of the
    pattern YYYY-MM-DD and is parsed all the same, and so is a text whose
    year is in full-width digits. *)
Lemma single_digit_month_and_day_parse :
  parse_date decimal_14 "2024-1-5" = Return (mkDatetime 2024 1 5)
  /\ strict_YYYY_MM_DD "2024-1-5" = false
  /\ parse_date decimal_14 "２０２４-01-01" = Return (mkDatetime 2024 1 1)
  /\ strict_YYYY_MM_DD "２０２４-01-01" = false.
Proof. repeat split; reflexivity. Qed.

(** The digits of other scripts: [\d] takes them in the year and as the
    second digit of the days 10 to 29; the classes of the month and of the
    other days are ASCII, so a text wholly in full-width digits is
    refused. *)
Example digits_of_other_scripts :
  parse_date decimal_14 "٢٠٢٤-01-01" = Return (mkDatetime 2024 1 1)
  /\ parse_date decimal_14 "2024-01-1５" = Return (mkDatetime 2024 1 15)
  /\ parse_date decimal_14 "2024-02-2９" = Return (mkDatetime 2024 2 29)
  /\ parse_date decimal_14 "2023-02-2９"
     = Raise (HTTPException 400 "Invalid date format. Use YYYY-MM-DD")
  /\ parse_date decimal_14 "2024-01-3１"
     = Raise (HTTPException 400 "Invalid date format. Use YYYY-MM-DD")
  /\ parse_date decimal_14 "2024-０１-01"
     = Raise (HTTPException 400 "Invalid date format. Use YYYY-MM-DD")
  /\ parse_date decimal_14 "２０２４-０１-０１"
     = Raise (HTTPException 400 "Invalid date format. Use YYYY-MM-DD").
Proof. repeat split; vm_compute; reflexivity. Qed.

(** Blanks, text left over and years out of range. *)
Example refused_texts :
  map (parse_date decimal_14)
    ["2024-01-01 "; " 2024-01-01"; "2024-01-011"; "2024-13-01"; "2024-02-30";
     "0000-01-01"; "01/01/2024"; "20240101"; ""]
  = repeat (Raise (HTTPException 400 "Invalid date format. Use YYYY-MM-DD"))
      9
  /\ parse_date decimal_14 "2024-01- 5" = Return (mkDatetime 2024 1 5).
Proof. split; vm_compute; reflexivity. Qed.

(** C7, amended, for 29 February 2024. *)
Lemma parse_date_spec_witness :
  parse_date decimal_14 "2024-02-29" = Return (mkDatetime 2024 2 29).
Proof.
  apply (proj2 (proj2 (parse_date_spec decimal_14 "2024-02-29"))); reflexivity.
Defined.

(** C8 for the first week of 2024 in New South Wales. *)
Lemma working_days_list_ascending_witness :
  exists working_days,
    working_days_list new_year_calendar jan_1 jan_7 (Some "NSW")
    = Return working_days
    /\ StronglySorted date_lt working_days
    /\ NoDup working_days
    /\ Forall (fun date => leb jan_1 date = true /\ leb date jan_7 = true)
         working_days.
Proof.
  apply (working_days_list_ascending new_year_calendar jan_1 jan_7
           (Some "NSW")); reflexivity.
Defined.

(** C9 for one week and two weeks from 1 January 2024. *)
Lemma count_monotone_witness :
  exists n n',
    fst (count_working_days new_year_calendar jan_1 jan_7 (Some "NSW") [])
    = Return n
    /\ fst (count_working_days new_year_calendar jan_1 jan_14 (Some "NSW") [])
       = Return n'
    /\ n <= n'.
Proof.
  apply (count_monotone new_year_calendar jan_1 jan_7 jan_14 (Some "NSW")
           [] []);
    [reflexivity | reflexivity | reflexivity | reflexivity | reflexivity
    | apply coherent_nil | apply coherent_nil].
Defined.

(** C10 as stated fails: with an empty jurisdiction text a request is
    still answered 400 when a date does not validate. *)
Lemma empty_state_with_bad_date_is_refused :
  get_working_days decimal_14 new_year_calendar "2024-13-01" "2024-01-07"
    (Some "") []
  = (Raise (HTTPException 400 "Invalid date format. Use YYYY-MM-DD"), [])
  /\ get_working_days_list decimal_14 new_year_calendar iso_text
       "2024-01-07" "2024-01-01" (Some "")
     = Raise (HTTPException 400
         "Start date must be before or equal to end date").
Proof. split; vm_compute; reflexivity. Qed.

(** C10 for the first week of 2024. *)
Lemma empty_state_is_passed_on_witness :
  fst (get_working_days decimal_14 new_year_calendar "2024-01-01" "2024-01-07"
         (Some "") [])
  = Return 4
  /\ get_working_days_list decimal_14 new_year_calendar iso_text
       "2024-01-01" "2024-01-07" (Some "")
     = Return ["2024-01-02"; "2024-01-03"; "2024-01-04"; "2024-01-05"].
Proof.
  pose proof (empty_state_is_passed_on decimal_14 new_year_calendar iso_text
                "2024-01-01" "2024-01-07" []) as (_ & _ & _ & H).
  destruct (H jan_1 jan_7 eq_refl eq_refl eq_refl
              (coherent_nil new_year_calendar)) as (_ & Hn & _ & Hl).
  split; [exact Hn | exact Hl].
Defined.

(* ================================================================== *)
(** * Further properties *)

(** ** The engine *)

Lemma length_range2 lo hi :
  Z.of_nat (List.length (range2 lo hi)) = Z.max 0 (hi - lo).
Proof. unfold range2. rewrite length_map, length_seq. lia. Qed.

Lemma length_filter_le {A} (p : A -> bool) (l : list A) :
  (List.length (filter p l) <= List.length l)%nat.
Proof.
  induction l as [| a l IH]; simpl; [lia|]. destruct (p a); simpl; lia.
Qed.

(** Every valid date from [start] to [end_] is one of the dates the two
    loops visit. *)
Lemma date_in_range_visited start end_ date :
  valid start = true -> valid end_ = true -> valid date = true ->
  leb start date = true -> leb date end_ = true ->
  In date (map (day_at start) (range (sub_days end_ start + 1))).
Proof.
  intros Vs Ve Vd L1 L2.
  apply leb_toordinal in L1; [|assumption..].
  apply leb_toordinal in L2; [|assumption..].
  apply in_map_iff. exists (toordinal date - toordinal start). split.
  - unfold day_at.
    replace (toordinal start + (toordinal date - toordinal start))
      with (toordinal date) by lia.
    apply fromordinal_toordinal. exact Vd.
  - apply in_range. unfold sub_days. lia.
Qed.

Lemma visited_valid start end_ date :
  valid start = true -> valid end_ = true ->
  In date (map (day_at start) (range (sub_days end_ start + 1))) ->
  valid date = true.
Proof.
  intros Vs Ve Hd. apply in_map_iff in Hd. destruct Hd as (x & <- & Hx).
  destruct (range_in_calendar start end_ x Vs Ve Hx) as (H0 & H1 & H2).
  apply day_at_valid. lia.
Qed.

(** The dates from the day after [mid] on, seen from [start] or from that
    day, are the same dates. *)
Lemma later_days_shift start mid next n :
  valid start = true -> valid mid = true ->
  toordinal start <= toordinal mid ->
  toordinal mid + 1 <= _MAXORDINAL ->
  add_days mid 1 = Return next ->
  map (day_at start)
    (range2 (toordinal mid - toordinal start + 1)
            (toordinal mid - toordinal start + 1 + n))
  = map (day_at next) (range n) /\ toordinal next = toordinal mid + 1.
Proof.
  intros Vs Vm Le Max Hn.
  pose proof (toordinal_range mid Vm) as Rm.
  rewrite add_days_ok in Hn by lia. inversion Hn as [E]. subst next.
  assert (toordinal (day_at mid 1) = toordinal mid + 1) as Tn
    by (apply toordinal_day_at; lia).
  split; [|exact Tn].
  set (nx := day_at mid 1) in *. clearbody nx.
  unfold range, range2.
  replace (toordinal mid - toordinal start + 1 + n
           - (toordinal mid - toordinal start + 1)) with (n - 0) by lia.
  rewrite !map_map. apply map_ext. intros k. unfold day_at.
  rewrite Tn. f_equal. lia.
Qed.

(** Seven days in a row hold five weekdays. *)
Lemma five_weekdays_a_week a b :
  List.length (filter (fun x => (a + x) mod 7 <? 5) (range2 b (b + 7)))
  = 5%nat.
Proof.
  unfold range2. replace (b + 7 - b) with 7 by lia.
  change (Z.to_nat 7) with 7%nat. cbn [seq map filter].
  set (r := (a + b) mod 7).
  assert (forall i, (a + (b + i)) mod 7 = (r + i) mod 7) as Hi.
  { intros i. unfold r. rewrite Zplus_mod_idemp_l. f_equal. lia. }
  rewrite !Hi.
  assert (r = 0 \/ r = 1 \/ r = 2 \/ r = 3 \/ r = 4 \/ r = 5 \/ r = 6) as C
    by (pose proof (Z.mod_pos_bound (a + b) 7); unfold r; lia).
  clearbody r.
  repeat (destruct C as [-> | C]; [reflexivity|]). subst. reflexivity.
Qed.

Lemma weekdays_of_weeks a : forall k : nat,
  List.length (filter (fun x => (a + x) mod 7 <? 5) (range (7 * Z.of_nat k)))
  = (5 * k)%nat.
Proof.
  induction k as [| k IH]; [reflexivity|].
  rewrite (range_app (7 * Z.of_nat k) (7 * Z.of_nat (S k))) by lia.
  rewrite filter_app, length_app, IH.
  replace (7 * Z.of_nat (S k)) with (7 * Z.of_nat k + 7) by lia.
  rewrite five_weekdays_a_week. lia.
Qed.

Lemma filter_map_length {A B} (f : A -> B) (p : B -> bool) (q : A -> bool)
    (l : list A) :
  (forall x, In x l -> p (f x) = q x) ->
  List.length (filter p (map f l)) = List.length (filter q l).
Proof.
  induction l as [| a l IH]; intros H; [reflexivity|].
  cbn [map filter]. rewrite (H a) by (left; reflexivity).
  assert (List.length (filter p (map f l)) = List.length (filter q l)) as E
    by (apply IH; intros x Hx; apply H; right; exact Hx).
  destruct (q a); cbn [List.length]; rewrite E; reflexivity.
Qed.

Lemma filter_and_length_le {A} (p q : A -> bool) (l : list A) :
  (List.length (filter (fun x => p x && q x) l)
   <= List.length (filter p l))%nat.
Proof.
  induction l as [| a l IH]; simpl; [lia|].
  destruct (p a), (q a); simpl; lia.
Qed.

Lemma filter_ext_on {A} (p q : A -> bool) (l : list A) :
  (forall x, In x l -> p x = q x) -> filter p l = filter q l.
Proof.
  induction l as [| a l IH]; intros H; [reflexivity|].
  simpl. rewrite (H a) by (left; reflexivity).
  rewrite IH by (intros x Hx; apply H; right; exact Hx). reflexivity.
Qed.

Section Engine.

Variable Australia : list Z -> option string -> datetime -> bool.

(** X1: the list holds exactly the working days of the inclusive range:
    the valid dates from [start] to [end_] that fall on Monday to Friday
    and are not in the holiday set. *)
Theorem working_days_list_exact start end_ state :
  valid start = true -> valid end_ = true ->
  exists working_days,
    working_days_list Australia start end_ state = Return working_days
    /\ forall date,
         In date working_days
         <-> valid date = true
             /\ leb start date = true /\ leb date end_ = true
             /\ 1 <= isoweekday date <= 5
             /\ Australia (range2 2000 2050) state date = false.
Proof.
  intros Vs Ve. eexists. split; [apply working_days_list_ok; assumption|].
  intros date. unfold working_among. rewrite filter_In.
  unfold is_working_day, get_holidays.
  rewrite andb_true_iff, negb_true_iff, Z.ltb_lt, weekday_isoweekday. split.
  - intros (Hin & Hw & Hh).
    destruct (days_of_range_bounds start end_ date Vs Ve Hin) as [L1 L2].
    pose proof (visited_valid start end_ date Vs Ve Hin). auto 10.
  - intros (Vd & L1 & L2 & Hw & Hh). split; [|auto].
    apply date_in_range_visited; assumption.
Qed.

(** X2: the count lies between 0 and the number of days of the range. *)
Theorem count_within_range start end_ state c :
  valid start = true -> valid end_ = true -> leb start end_ = true ->
  coherent Australia c ->
  exists n,
    fst (count_working_days Australia start end_ state c) = Return n
    /\ 0 <= n <= sub_days end_ start + 1.
Proof.
  intros Vs Ve L Hc. apply leb_toordinal in L; [|assumption..].
  rewrite count_working_days_value by exact Hc.
  rewrite count_working_days_body_ok by assumption.
  eexists. split; [reflexivity|]. unfold working_among.
  pose proof (length_filter_le
                (fun date => is_working_day Australia date state)
                (map (day_at start) (range (sub_days end_ start + 1)))) as B.
  rewrite length_map in B.
  pose proof (length_range2 0 (sub_days end_ start + 1)) as R.
  fold (range (sub_days end_ start + 1)) in R. unfold sub_days in *. lia.
Qed.

(** X3: a range of one day. The list holds that day or nothing and the
    count is 1 or 0, as the day is a working day or not. *)
Theorem single_day_range date state c :
  valid date = true -> coherent Australia c ->
  working_days_list Australia date date state
  = Return (if is_working_day Australia date state then [date] else [])
  /\ fst (count_working_days Australia date date state c)
     = Return (if is_working_day Australia date state then 1 else 0).
Proof.
  intros V Hc.
  rewrite count_working_days_value by exact Hc.
  rewrite count_working_days_body_ok, working_days_list_ok by assumption.
  unfold working_among, sub_days.
  replace (toordinal date - toordinal date + 1) with 1 by lia.
  change (range 1) with [0]. cbn [map filter].
  unfold day_at. rewrite Z.add_0_r, fromordinal_toordinal by exact V.
  destruct (is_working_day Australia date state); split; reflexivity.
Qed.

(** X4: called with the start after the end, [count_working_days] visits
    no date and returns 0; it raises nothing. *)
Theorem count_of_inverted_range start end_ state c :
  valid start = true -> valid end_ = true -> gtb start end_ = true ->
  coherent Australia c ->
  fst (count_working_days Australia start end_ state c) = Return 0.
Proof.
  intros Vs Ve G Hc.
  assert (toordinal end_ < toordinal start) as Lt.
  { destruct (Z_lt_ge_dec (toordinal end_) (toordinal start)) as [|Ge];
      [assumption|].
    assert (leb start end_ = true) as L by (apply leb_toordinal; auto; lia).
    unfold leb in L. rewrite G in L. discriminate. }
  rewrite count_working_days_value by exact Hc.
  rewrite count_working_days_body_ok by assumption.
  unfold working_among, sub_days, range, range2.
  replace (Z.to_nat (toordinal end_ - toordinal start + 1 - 0)) with 0%nat
    by lia.
  reflexivity.
Qed.

(** X5: a range splits at any day: the working days from [start] to
    [end_] are those from [start] to [mid] followed by those from the day
    after [mid] to [end_], and the counts add up. *)
Theorem working_days_split start mid next end_ state c c1 c2 :
  valid start = true -> valid mid = true -> valid end_ = true ->
  leb start mid = true -> ltb mid end_ = true ->
  add_days mid 1 = Return next ->
  coherent Australia c -> coherent Australia c1 -> coherent Australia c2 ->
  exists first rest n1 n2,
    working_days_list Australia start mid state = Return first
    /\ working_days_list Australia next end_ state = Return rest
    /\ working_days_list Australia start end_ state = Return (first ++ rest)
    /\ fst (count_working_days Australia start mid state c1) = Return n1
    /\ fst (count_working_days Australia next end_ state c2) = Return n2
    /\ fst (count_working_days Australia start end_ state c)
       = Return (n1 + n2).
Proof.
  intros Vs Vm Ve L Lt Hn Hc Hc1 Hc2.
  apply leb_toordinal in L; [|assumption..].
  apply ltb_toordinal in Lt; [|assumption..].
  pose proof (toordinal_range end_ Ve) as Re.
  destruct (later_days_shift start mid next (toordinal end_ - toordinal mid)
              Vs Vm L ltac:(lia) Hn) as [Shift Tn].
  assert (valid next = true) as Vn.
  { pose proof (toordinal_range mid Vm).
    rewrite add_days_ok in Hn by lia. inversion Hn.
    apply day_at_valid. lia. }
  rewrite !count_working_days_value by assumption.
  rewrite !count_working_days_body_ok, !working_days_list_ok by assumption.
  assert (working_among Australia start state
            (range (sub_days end_ start + 1))
          = working_among Australia start state
              (range (sub_days mid start + 1))
            ++ working_among Australia next state
                 (range (sub_days end_ next + 1))) as Split.
  { unfold working_among, sub_days.
    rewrite (range_app (toordinal mid - toordinal start + 1)
                       (toordinal end_ - toordinal start + 1)) by lia.
    rewrite map_app, filter_app. f_equal. f_equal.
    replace (toordinal end_ - toordinal start + 1)
      with (toordinal mid - toordinal start + 1
            + (toordinal end_ - toordinal mid)) by lia.
    rewrite Shift, Tn. f_equal. f_equal. lia. }
  do 4 eexists. split; [reflexivity|]. split; [reflexivity|].
  split; [rewrite Split; reflexivity|].
  split; [reflexivity|]. split; [reflexivity|].
  rewrite Split, length_app. f_equal. lia.
Qed.

(** X6: a whole number of weeks holds at most five working days a week,
    and exactly five when no day of the range is a holiday. *)
Theorem whole_weeks start end_ state c (k : nat) :
  valid start = true -> valid end_ = true ->
  sub_days end_ start + 1 = 7 * Z.of_nat k ->
  coherent Australia c ->
  exists n,
    fst (count_working_days Australia start end_ state c) = Return n
    /\ n <= 5 * Z.of_nat k
    /\ ((forall date, leb start date = true -> leb date end_ = true ->
           Australia (range2 2000 2050) state date = false) ->
        n = 5 * Z.of_nat k).
Proof.
  intros Vs Ve Hk Hc.
  rewrite count_working_days_value by exact Hc.
  rewrite count_working_days_body_ok by assumption.
  eexists. split; [reflexivity|]. unfold working_among.
  set (days := map (day_at start) (range (sub_days end_ start + 1))).
  assert (List.length (filter (fun date => weekday date <? 5) days)
          = (5 * k)%nat) as W.
  { unfold days.
    rewrite (filter_map_length (day_at start) _
               (fun x => (toordinal start + 6 + x) mod 7 <? 5)).
    - rewrite Hk. apply weekdays_of_weeks.
    - intros x Hx.
      destruct (range_in_calendar start end_ x Vs Ve Hx) as (_ & H1 & _).
      unfold weekday. rewrite toordinal_day_at by lia.
      f_equal. f_equal. lia. }
  split.
  - pose proof (filter_and_length_le (fun date => weekday date <? 5)
                  (fun date => negb (get_holidays Australia state date))
                  days) as B.
    unfold is_working_day. lia.
  - intros Hno.
    rewrite (filter_ext_on _ (fun date => weekday date <? 5)); [lia|].
    intros date Hd. unfold is_working_day, get_holidays.
    destruct (days_of_range_bounds start end_ date Vs Ve Hd) as [L1 L2].
    rewrite (Hno date L1 L2). apply andb_true_r.
Qed.

End Engine.

(** X15: the answers depend on the holiday calendar only through the
    dates of the range: two calendars, or two jurisdictions, that agree on
    every date from [start] to [end_] give the same list and the same
    count. *)
Theorem only_holidays_in_range_matter
    (Australia1 Australia2 : list Z -> option string -> datetime -> bool)
    start end_ state1 state2 c1 c2 :
  valid start = true -> valid end_ = true ->
  (forall date, leb start date = true -> leb date end_ = true ->
     Australia1 (range2 2000 2050) state1 date
     = Australia2 (range2 2000 2050) state2 date) ->
  coherent Australia1 c1 -> coherent Australia2 c2 ->
  working_days_list Australia1 start end_ state1
  = working_days_list Australia2 start end_ state2
  /\ fst (count_working_days Australia1 start end_ state1 c1)
     = fst (count_working_days Australia2 start end_ state2 c2).
Proof.
  intros Vs Ve Same Hc1 Hc2.
  rewrite !count_working_days_value by assumption.
  rewrite !count_working_days_body_ok, !working_days_list_ok by assumption.
  assert (working_among Australia1 start state1
            (range (sub_days end_ start + 1))
          = working_among Australia2 start state2
              (range (sub_days end_ start + 1))) as E.
  { unfold working_among. apply filter_ext_on. intros date Hd.
    destruct (days_of_range_bounds start end_ date Vs Ve Hd) as [L1 L2].
    unfold is_working_day, get_holidays. rewrite (Same date L1 L2).
    reflexivity. }
  rewrite E. split; reflexivity.
Qed.

(** ** The endpoints and the cache *)

(** X14: [parse_date] reads the zero-padded text of every date of the
    calendar back as that date. *)
Theorem parse_date_of_iso_text unicode_decimal date :
  valid date = true ->
  parse_date unicode_decimal (iso_text date) = Return date.
Proof.
  intros V. unfold parse_date.
  rewrite (strptime_of_iso_text unicode_decimal date V). reflexivity.
Qed.

Section EndpointFacts.

Variable unicode_decimal : N -> option Z.
Variable Australia : list Z -> option string -> datetime -> bool.

(** A call of [count_working_days] on valid dates returns a count, from
    any cache. *)
Lemma count_working_days_returns start end_ state c :
  valid start = true -> valid end_ = true ->
  exists n, fst (count_working_days Australia start end_ state c) = Return n.
Proof.
  intros Vs Ve. unfold count_working_days, LruCache.call.
  destruct (LruCache.lookup _ _ _ _ c) as [v|]; [exists v; reflexivity|].
  rewrite count_working_days_body_ok by assumption.
  eexists. reflexivity.
Qed.

(** X9: a request that is refused leaves the cache as it was. *)
Theorem refused_request_keeps_cache start_date end_date state c e :
  fst (get_working_days unicode_decimal Australia start_date end_date state c) =
      Raise e ->
  snd (get_working_days unicode_decimal Australia start_date end_date state c) =
      c.
Proof.
  unfold get_working_days.
  destruct (parse_date unicode_decimal start_date) as [start|]; [|reflexivity].
  destruct (parse_date unicode_decimal end_date) as [end_|]; [|reflexivity].
  destruct (gtb start end_); [reflexivity|].
  destruct (unknown_state state); [reflexivity|].
  unfold count_working_days, LruCache.call.
  destruct (LruCache.lookup _ _ _ _ c); [discriminate|].
  destruct (count_working_days_body Australia (start, end_, state));
    [discriminate | reflexivity].
Qed.

(** X13: the count a call returns is in the cache afterwards, under the
    arguments of the call, also when the cache was full. *)
Theorem count_is_stored start end_ state c n :
  fst (count_working_days Australia start end_ state c) = Return n ->
  LruCache.lookup key Z key_eqb (start, end_, state)
    (snd (count_working_days Australia start end_ state c))
  = Some n.
Proof. apply (call_stores _ _ key_eqb key_eqb_eq). Qed.

(** The cache stays coherent and within 1000 entries over any history. *)
Lemma cache_after_invariant history :
  coherent Australia (cache_after unicode_decimal Australia history)
  /\ (List.length (cache_after unicode_decimal Australia history) <= 1000)%nat.
Proof.
  unfold cache_after.
  assert (forall c,
            coherent Australia c /\ (List.length c <= 1000)%nat ->
            let c' :=
              fold_left
                (fun c '(start_date, end_date, state) =>
                   snd (get_working_days unicode_decimal Australia start_date
                       end_date state c))
                history c in
            coherent Australia c' /\ (List.length c' <= 1000)%nat) as G.
  { induction history as [| [[sd ed] st] history IH]; intros c [Hc Hb];
      cbn [fold_left]; [auto|].
    apply IH. split.
    - apply get_working_days_coherent. exact Hc.
    - apply get_working_days_bounded. exact Hb. }
  apply G. split; [apply coherent_nil | simpl; lia].
Qed.

(** X12: whatever requests are served, the cache never holds more than
    1000 counts. *)
Theorem cache_never_exceeds_maxsize history :
  (List.length (cache_after unicode_decimal Australia history) <= 1000)%nat.
Proof. apply cache_after_invariant. Qed.

(** X11: the cache is invisible in the answers: after any history of
    requests a request is answered as it is from an empty cache. *)
Theorem answer_independent_of_history history start_date end_date state :
  fst (get_working_days unicode_decimal Australia start_date end_date state
         (cache_after unicode_decimal Australia history))
  = fst (get_working_days unicode_decimal Australia start_date end_date state
      []).
Proof.
  destruct (cache_after_invariant history) as [Hc _].
  unfold get_working_days.
  destruct (parse_date unicode_decimal start_date) as [start|]; [|reflexivity].
  destruct (parse_date unicode_decimal end_date) as [end_|]; [|reflexivity].
  destruct (gtb start end_); [reflexivity|].
  destruct (unknown_state state); [reflexivity|].
  rewrite !count_working_days_value;
    [reflexivity | apply coherent_nil | exact Hc].
Qed.

Section BothEndpoints.

Variable strftime_Ymd : datetime -> string.

(** X8: called with the texts of the two dates, which the framework
    requires of a request before it calls them, the endpoint functions
    answer with a result or with one of three refusals of status 400; the
    overflow of the date arithmetic never reaches the caller. *)
Theorem answers_are_results_or_refusals start_date end_date state c :
  ((exists n,
      fst (get_working_days unicode_decimal Australia start_date end_date state
          c) = Return n)
   \/ exists detail,
        fst (get_working_days unicode_decimal Australia start_date end_date
            state c)
        = Raise (HTTPException 400 detail)
        /\ In detail ["Invalid date format. Use YYYY-MM-DD";
                      inverted_detail; invalid_state_detail])
  /\ ((exists days,
         get_working_days_list unicode_decimal Australia strftime_Ymd start_date
             end_date state
         = Return days)
      \/ exists detail,
           get_working_days_list unicode_decimal Australia strftime_Ymd
               start_date end_date
             state
           = Raise (HTTPException 400 detail)
           /\ In detail ["Invalid date format. Use YYYY-MM-DD";
                         inverted_detail; invalid_state_detail]).
Proof.
  unfold get_working_days, get_working_days_list.
  destruct (parse_date unicode_decimal start_date) as [start|e1] eqn:Ps.
  2:{ unfold parse_date in Ps. destruct (strptime_Ymd unicode_decimal
      start_date);
        inversion Ps; subst.
      split; right; eexists; (split; [reflexivity | left; reflexivity]). }
  destruct (parse_date unicode_decimal end_date) as [end_|e2] eqn:Pe.
  2:{ unfold parse_date in Pe. destruct (strptime_Ymd unicode_decimal end_date);
        inversion Pe; subst.
      split; right; eexists; (split; [reflexivity | left; reflexivity]). }
  cbn [bind]. destruct (gtb start end_).
  { split; right; eexists;
      (split; [reflexivity | right; left; reflexivity]). }
  destruct (unknown_state state).
  { split; right; eexists;
      (split; [reflexivity | right; right; left; reflexivity]). }
  pose proof (parse_date_valid _ _ _ Ps) as Vs.
  pose proof (parse_date_valid _ _ _ Pe) as Ve.
  split; left.
  - apply count_working_days_returns; assumption.
  - rewrite working_days_list_ok by assumption. cbn [bind].
    eexists. reflexivity.
Qed.

(** X10: the dates are checked first: when either text does not read as a
    date ([date_text], with the decimal digits of every script) both
    endpoints refuse with the message of the date format, whatever the
    other arguments, and the cache is not touched. *)
Theorem date_format_is_checked_first start_date end_date state c :
  (~ exists date, date_text unicode_decimal start_date date)
  \/ (~ exists date, date_text unicode_decimal end_date date) ->
  get_working_days unicode_decimal Australia start_date end_date state c
  = (Raise (HTTPException 400 "Invalid date format. Use YYYY-MM-DD"), c)
  /\ get_working_days_list unicode_decimal Australia strftime_Ymd start_date
      end_date state
     = Raise (HTTPException 400 "Invalid date format. Use YYYY-MM-DD").
Proof.
  intros H. unfold get_working_days, get_working_days_list, parse_date.
  destruct (strptime_Ymd unicode_decimal start_date) as [start|] eqn:Es;
    [|split; reflexivity].
  destruct (strptime_Ymd unicode_decimal end_date) as [end_|] eqn:Ee;
    [|split; reflexivity].
  exfalso. apply strptime_spec in Es, Ee.
  destruct H as [H | H]; apply H; eauto.
Qed.

End BothEndpoints.

End EndpointFacts.

(** ** The further properties at concrete requests *)

(** X1 for the first week of 2024 in New South Wales. *)
Lemma working_days_list_exact_witness :
  exists working_days,
    working_days_list new_year_calendar jan_1 jan_7 (Some "NSW")
    = Return working_days
    /\ forall date,
         In date working_days
         <-> valid date = true
             /\ leb jan_1 date = true /\ leb date jan_7 = true
             /\ 1 <= isoweekday date <= 5
             /\ new_year_calendar (range2 2000 2050) (Some "NSW") date = false.
Proof.
  apply (working_days_list_exact new_year_calendar jan_1 jan_7 (Some "NSW"));
    reflexivity.
Defined.

(** X2 for the first week of 2024. *)
Lemma count_within_range_witness :
  exists n,
    fst (count_working_days new_year_calendar jan_1 jan_7 None []) = Return n
    /\ 0 <= n <= sub_days jan_7 jan_1 + 1.
Proof.
  apply (count_within_range new_year_calendar jan_1 jan_7 None []);
    [reflexivity | reflexivity | reflexivity | apply coherent_nil].
Defined.

(** X3 for New Year's Day 2024. *)
Lemma single_day_range_witness :
  working_days_list new_year_calendar jan_1 jan_1 (Some "VIC")
  = Return (if is_working_day new_year_calendar jan_1 (Some "VIC")
            then [jan_1] else [])
  /\ fst (count_working_days new_year_calendar jan_1 jan_1 (Some "VIC") [])
     = Return (if is_working_day new_year_calendar jan_1 (Some "VIC")
               then 1 else 0).
Proof.
  apply (single_day_range new_year_calendar jan_1 (Some "VIC") []);
    [reflexivity | apply coherent_nil].
Defined.

(** X4 for 7 January back to 1 January 2024. *)
Lemma count_of_inverted_range_witness :
  fst (count_working_days new_year_calendar jan_7 jan_1 None []) = Return 0.
Proof.
  apply (count_of_inverted_range new_year_calendar jan_7 jan_1 None []);
    [reflexivity | reflexivity | reflexivity | apply coherent_nil].
Defined.

(** X5 for the first two weeks of 2024, split after 7 January. *)
Lemma working_days_split_witness :
  exists first rest n1 n2,
    working_days_list new_year_calendar jan_1 jan_7 None = Return first
    /\ working_days_list new_year_calendar (mkDatetime 2024 1 8) jan_14 None
       = Return rest
    /\ working_days_list new_year_calendar jan_1 jan_14 None
       = Return (first ++ rest)
    /\ fst (count_working_days new_year_calendar jan_1 jan_7 None [])
       = Return n1
    /\ fst (count_working_days new_year_calendar (mkDatetime 2024 1 8) jan_14
              None [])
       = Return n2
    /\ fst (count_working_days new_year_calendar jan_1 jan_14 None [])
       = Return (n1 + n2).
Proof.
  apply (working_days_split new_year_calendar jan_1 jan_7
           (mkDatetime 2024 1 8) jan_14 None [] [] []);
    [reflexivity | reflexivity | reflexivity | reflexivity | reflexivity
    | reflexivity | apply coherent_nil | apply coherent_nil
    | apply coherent_nil].
Defined.

(** X6 for the first two weeks of 2024. *)
Lemma whole_weeks_witness :
  exists n,
    fst (count_working_days new_year_calendar jan_1 jan_14 None []) = Return n
    /\ n <= 5 * Z.of_nat 2
    /\ ((forall date, leb jan_1 date = true -> leb date jan_14 = true ->
           new_year_calendar (range2 2000 2050) None date = false) ->
        n = 5 * Z.of_nat 2).
Proof.
  apply (whole_weeks new_year_calendar jan_1 jan_14 None [] 2);
    [reflexivity | reflexivity | reflexivity | apply coherent_nil].
Defined.

(** X7 for the first week of 2024 in New South Wales. *)
Lemma endpoints_agree_witness :
  match get_working_days_list decimal_14 new_year_calendar iso_text
          "2024-01-01" "2024-01-07" (Some "NSW")
  with
  | Return days =>
      fst (get_working_days decimal_14 new_year_calendar "2024-01-01"
          "2024-01-07"
             (Some "NSW") [])
      = Return (Z.of_nat (List.length days))
  | Raise e =>
      fst (get_working_days decimal_14 new_year_calendar "2024-01-01"
          "2024-01-07"
             (Some "NSW") [])
      = Raise e
  end.
Proof.
  apply (endpoints_agree decimal_14 new_year_calendar iso_text
           "2024-01-01" "2024-01-07" (Some "NSW") []).
  apply coherent_nil.
Defined.

(** X9 for an inverted range. *)
Lemma refused_request_keeps_cache_witness :
  snd (get_working_days decimal_14 new_year_calendar "2024-05-10" "2024-05-01"
      None [])
  = [].
Proof.
  apply (refused_request_keeps_cache decimal_14 new_year_calendar
           "2024-05-10" "2024-05-01" None []
           (HTTPException 400 inverted_detail)).
  reflexivity.
Defined.

(** A request whose start date has its year in full-width digits reads
    as a date and is served. *)
Example full_width_year_is_served :
  get_working_days decimal_14 new_year_calendar "２０２４-01-01" "2024-01-07"
    None []
  = (Return 4, [((jan_1, jan_7, None), 4)])
  /\ get_working_days_list decimal_14 new_year_calendar iso_text
       "２０２４-01-01" "2024-01-07" None
     = Return ["2024-01-02"; "2024-01-03"; "2024-01-04"; "2024-01-05"].
Proof. split; vm_compute; reflexivity. Qed.

(** X10 for a start date that is not a date and a state that is no code. *)
Lemma date_format_is_checked_first_witness :
  get_working_days decimal_14 new_year_calendar "01/01/2024" "2024-01-07" (Some
      "XX") []
  = (Raise (HTTPException 400 "Invalid date format. Use YYYY-MM-DD"), [])
  /\ get_working_days_list decimal_14 new_year_calendar iso_text
       "01/01/2024" "2024-01-07" (Some "XX")
     = Raise (HTTPException 400 "Invalid date format. Use YYYY-MM-DD").
Proof.
  apply (date_format_is_checked_first decimal_14 new_year_calendar iso_text
           "01/01/2024" "2024-01-07" (Some "XX") []).
  left. apply no_date_text. reflexivity.
Defined.

(** X13 for the first week of 2024. *)
Lemma count_is_stored_witness :
  LruCache.lookup key Z key_eqb (jan_1, jan_7, None)
    (snd (count_working_days new_year_calendar jan_1 jan_7 None []))
  = Some 4.
Proof.
  apply (count_is_stored new_year_calendar jan_1 jan_7 None [] 4).
  reflexivity.
Defined.

(** X14 for 29 February 2024. *)
Lemma parse_date_of_iso_text_witness :
  parse_date decimal_14 (iso_text (mkDatetime 2024 2 29))
  = Return (mkDatetime 2024 2 29).
Proof.
  apply (parse_date_of_iso_text decimal_14 (mkDatetime 2024 2 29)). reflexivity.
Defined.

(** X15 for the first week of 2024: no jurisdiction and the empty text. *)
Lemma only_holidays_in_range_matter_witness :
  working_days_list new_year_calendar jan_1 jan_7 None
  = working_days_list new_year_calendar jan_1 jan_7 (Some "")
  /\ fst (count_working_days new_year_calendar jan_1 jan_7 None [])
     = fst (count_working_days new_year_calendar jan_1 jan_7 (Some "") []).
Proof.
  apply (only_holidays_in_range_matter new_year_calendar new_year_calendar
           jan_1 jan_7 None (Some "") [] []);
    [reflexivity | reflexivity | reflexivity
    | apply coherent_nil | apply coherent_nil].
Defined.

